(** * kik_unofficial.client: the transport framing layer and the client core

    A shallow embedding of [src/kik_unofficial/client.py]: the two classes
    [KikConnection] (the asyncio protocol that frames the byte stream) and
    [KikClient] (handshake, routing of decoded stanzas, the public send
    primitive), followed by the properties of the specification.

    Conventions of the embedding.
    - [bytes] objects are lists of [Byte.byte]; [str] objects are [string];
      Python's [None]-able attributes are [option]s.
    - Every method is a computation in the monad [M]: it threads the
      object's state, appends to a trace of observable effects (log records,
      calls scheduled on the loop, transport writes, sleeps, calls of the
      external callbacks and handlers) and ends by returning, by raising a
      Python exception, or blocked in a polling loop.
    - Code of other modules of the package (element builders, the XML
      parser, namespace handlers, the callback object) is not part of this
      file: the element builders and the parser are the fields of the class
      [Collaborators], over which the client's methods are generic, and a
      call of a handler or of a callback is an effect of the trace. *)

From Stdlib Require Import ZArith QArith.
From Stdlib Require Import Strings.Byte.
From stdpp Require Import base option list strings gmap.

#[local] Set Warnings "-register-all".
Local Open Scope Z_scope.
Local Open Scope list_scope.

(** ** Python's [bytes] *)

Abbreviation bytes := (list byte).

#[global] Instance byte_eq_decision : EqDecision byte := Byte.byte_eq_dec.

(** The bytes of an ASCII literal: [b"..."] in the source. *)
Definition b (s : string) : bytes := String.list_byte_of_string s.

(** [len(data)]. *)
Definition len (data : bytes) : Z := Z.of_nat (length data).

Module PyBytes.

(** [data.lstrip(chars)]: drop leading bytes while they belong to [chars]. *)
Fixpoint lstrip (chars : bytes) (data : bytes) : bytes :=
  match data with
  | [] => []
  | x :: rest => if bool_decide (x ∈ chars) then lstrip chars rest else data
  end.

(** [data.split(sep)] for a one-byte separator: the pieces between the
    occurrences of [sep], in order; never empty. *)
Fixpoint split (sep : byte) (data : bytes) : list bytes :=
  match data with
  | [] => [[]]
  | x :: rest =>
      if bool_decide (x = sep) then [] :: split sep rest
      else match split sep rest with
           | [] => [[x]]
           | piece :: pieces => (x :: piece) :: pieces
           end
  end.

(** [pieces[0]] of a list that [split] returned. *)
Definition item0 (pieces : list bytes) : bytes := hd [] pieces.

(** [data.endswith(suffix)]. *)
Definition endswith (data suffix : bytes) : bool :=
  bool_decide (length suffix ≤ length data)%nat
  && bool_decide (drop (length data - length suffix) data = suffix).

(** [data[:-1]]. *)
Definition but_last (data : bytes) : bytes := take (length data - 1) data.

End PyBytes.

(** ** The decoded stanza (a BeautifulSoup node) *)

(** A node of the parsed tree: a tag with its name, attribute dictionary
    and contents, or a piece of text. *)
Inductive Node : Type :=
| Tag (name : string) (attrs : gmap string string) (contents : list Node)
| NavigableString (text : string).

(** [node.name]; text nodes have none. *)
Definition node_name (n : Node) : option string :=
  match n with
  | Tag name _ _ => Some name
  | NavigableString _ => None
  end.

(** [tag.attrs]. *)
Definition node_attrs (n : Node) : gmap string string :=
  match n with
  | Tag _ attrs _ => attrs
  | NavigableString _ => ∅
  end.

(** [tag.<name>], i.e. [tag.find(name)]: the first descendant tag called
    [name], in document order, or [None]. *)
Fixpoint find (name : string) (n : Node) : option Node :=
  match n with
  | NavigableString _ => None
  | Tag _ _ contents =>
      (fix among (nodes : list Node) : option Node :=
         match nodes with
         | [] => None
         | child :: others =>
             match child with
             | Tag child_name _ _ =>
                 if bool_decide (child_name = name) then Some child
                 else match find name child with
                      | Some hit => Some hit
                      | None => among others
                      end
             | NavigableString _ => among others
             end
         end) contents
  end.

(** ** Effects *)

(** What [XMPPElement.serialize()] returns: one payload, or the list of
    payloads of a multi-packet element. *)
Inductive Serialized : Type :=
| Bytes (data : bytes)
| Packets (packets : list bytes).

(** An outbound element, as far as the client looks at it. *)
Record XMPPElement : Type := mkElement {
  message_id : string;
  serialize : Serialized
}.

Inductive level : Type := DEBUG | INFO | WARNING.

(** The handler classes of [kik_unofficial.xmlns_handlers]. *)
Inductive Handler : Type :=
| CheckUniqueHandler
| RegisterHandler
| RosterHandler
| MessageHandler
| GroupMessageHandler
| FriendMessageHandler
| XiphiasHandler.

(** A callable handed to [loop.call_soon_threadsafe] with its argument. *)
Inductive LoopCall : Type :=
| OnNewDataReceived (data : bytes)      (* api._on_new_data_received *)
| SendRawData (data : Serialized)       (* connection.send_raw_data *)
| OnConnectionLost.                     (* api._on_connection_lost *)

(** A method of the callback object, with the stanza its argument wraps. *)
Inductive CallbackCall : Type :=
| on_authenticated
| on_connection_failed (k_element : Node)
| on_group_receipts_received (xmpp_message : Node)
| on_captcha_received (xml_element : Node).

Inductive Effect : Type :=
| Log (lvl : level) (message : string)
| CallSoonThreadsafe (call : LoopCall)
| TransportWrite (data : Serialized)
| Sleep (seconds : Q)
| Callback (call : CallbackCall)
| Handle (handler : Handler) (stanza : Node)
| ThreadStart
| LoopStop.

(** ** The monad of methods *)

Inductive exn : Type :=
| KeyError (key : string)
| TypeError
| AttributeError
| UnicodeDecodeError
| KikApiException (message : string).

(** How a call ends. [Blocked]: the call is still inside a polling loop
    after the last observed read of the flag it polls. *)
Inductive outcome (A : Type) : Type :=
| Returned (value : A)
| Raised (e : exn)
| Blocked.
Arguments Returned {A} value.
Arguments Raised {A} e.
Arguments Blocked {A}.

Record Res (S A : Type) : Type := mkRes {
  state : S;
  trace : list Effect;
  result : outcome A
}.
Arguments mkRes {S A} state trace result.
Arguments state {S A} r.
Arguments trace {S A} r.
Arguments result {S A} r.

Definition M (S A : Type) : Type := S -> Res S A.

Definition ret {S A} (a : A) : M S A := fun s => mkRes s [] (Returned a).

Definition bind {S A B} (m : M S A) (k : A -> M S B) : M S B :=
  fun s =>
    let r := m s in
    match result r with
    | Returned a =>
        let r' := k a (state r) in
        mkRes (state r') (trace r ++ trace r') (result r')
    | Raised e => mkRes (state r) (trace r) (Raised e)
    | Blocked => mkRes (state r) (trace r) Blocked
    end.

Definition raise {S A} (e : exn) : M S A := fun s => mkRes s [] (Raised e).
Definition blocked {S A} : M S A := fun s => mkRes s [] Blocked.
Definition emit {S} (e : Effect) : M S unit := fun s => mkRes s [e] (Returned tt).
Definition get {S} : M S S := fun s => mkRes s [] (Returned s).
Definition put {S} (s : S) : M S unit := fun _ => mkRes s [] (Returned tt).

Notation "'let*' x ':=' m 'in' k" := (bind m (fun x => k))
  (at level 10, x name, m at level 100, k at level 200, only parsing).
Notation "m ;;; k" := (bind m (fun _ => k))
  (at level 100, k at level 200, right associativity, only parsing).

Definition log {S} (lvl : level) (message : string) : M S unit :=
  emit (Log lvl message).
Definition call_soon_threadsafe {S} (call : LoopCall) : M S unit :=
  emit (CallSoonThreadsafe call).

(** [for x in xs: body(x)]. *)
Fixpoint for_each {S A} (xs : list A) (body : A -> M S unit) : M S unit :=
  match xs with
  | [] => ret tt
  | x :: rest => body x ;;; for_each rest body
  end.

(** ** class KikConnection *)

(** The transport asyncio hands to [connection_made]. *)
Inductive Transport : Type := transport_object.

Record KikConnection : Type := mkConnection {
  partial_data : option bytes;
  partial_data_start_tag : option bytes;
  transport : option Transport
}.

(** [KikConnection.__init__]. *)
Definition new_KikConnection : KikConnection :=
  mkConnection None None None.

(** [KikConnection.parse_start_tag]. *)
Definition parse_start_tag (data : bytes) : bytes * bool :=
  let tag := PyBytes.lstrip (b "<") data in
  let tag := PyBytes.item0 (PyBytes.split ">"%byte tag) in
  let tag := PyBytes.item0 (PyBytes.split " "%byte tag) in
  let is_closing := PyBytes.endswith tag (b "/") in
  if is_closing then (PyBytes.but_last tag, is_closing) else (tag, is_closing).

(** [KikConnection.ends_with_tag]. *)
Definition ends_with_tag (expected_end_tag : bytes) (data : bytes) : bool :=
  PyBytes.endswith data (b "</" ++ expected_end_tag ++ b ">").

(** [KikConnection.data_received]. *)
Definition data_received (data : bytes) : M KikConnection unit :=
  log DEBUG "[+] Received raw data: %s" ;;;
  let* self := get in
  match partial_data self with
  | None =>
      if len data <? 16384 then
        call_soon_threadsafe (OnNewDataReceived data)
      else
        log DEBUG "Multi-packet data, waiting for next packet." ;;;
        let '(start_tag, is_closing) := parse_start_tag data in
        put (mkConnection (Some data) (Some start_tag) (transport self))
  | Some partial =>
      match partial_data_start_tag self with
      | None => raise TypeError
      | Some start_tag =>
          if ends_with_tag start_tag data then
            call_soon_threadsafe (OnNewDataReceived (partial ++ data)) ;;;
            put (mkConnection None None (transport self))
          else
            log DEBUG "[!] Waiting for another packet, size={}" ;;;
            put (mkConnection (Some (partial ++ data)) (Some start_tag)
                   (transport self))
      end
  end.

(** [KikConnection.send_raw_data]. *)
Definition send_raw_data (data : Serialized) : M KikConnection unit :=
  log DEBUG "[+] Sending raw data: %s" ;;;
  let* self := get in
  match transport self with
  | None => raise AttributeError
  | Some _ => emit (TransportWrite data)
  end.

(** [KikConnection.close]. *)
Definition close : M KikConnection unit :=
  let* self := get in
  match transport self with
  | None => ret tt
  | Some _ => emit (TransportWrite (Bytes (b "</k>")))
  end.

(** [KikConnection.connection_lost]. *)
Definition connection_lost : M KikConnection unit :=
  call_soon_threadsafe OnConnectionLost ;;;
  emit LoopStop.

(** Delivering several reads in a row. *)
Definition feed (chunks : list bytes) : M KikConnection unit :=
  for_each chunks data_received.

(** The stanzas a trace hands to [_on_new_data_received], in order. *)
Fixpoint dispatched (t : list Effect) : list bytes :=
  match t with
  | [] => []
  | CallSoonThreadsafe (OnNewDataReceived data) :: rest => data :: dispatched rest
  | _ :: rest => dispatched rest
  end.

(** ** The framing rule in the words of the specification *)

Module FramingSpec.

(** Strip the leading bytes equal to [c]. *)
Fixpoint strip_leading (c : byte) (data : bytes) : bytes :=
  match data with
  | [] => []
  | x :: rest => if bool_decide (x = c) then strip_leading c rest else data
  end.

(** Cut at the first [c]: what stands before it, or everything. *)
Fixpoint cut_at (c : byte) (data : bytes) : bytes :=
  match data with
  | [] => []
  | x :: rest => if bool_decide (x = c) then [] else x :: cut_at c rest
  end.

(** Strip one trailing [c], when the last byte is [c]. *)
Definition strip_one_trailing (c : byte) (data : bytes) : bytes :=
  match reverse data with
  | x :: before => if bool_decide (x = c) then reverse before else data
  | [] => data
  end.

(** The opening tag name of a chunk. *)
Definition opening_tag_name (data : bytes) : bytes :=
  strip_one_trailing "/"%byte
    (cut_at " "%byte (cut_at ">"%byte (strip_leading "<"%byte data))).

(** The closing tag of a tag name. *)
Definition closing_tag (tag : bytes) : bytes := b "</" ++ tag ++ b ">".

End FramingSpec.

(** ** External collaborators of the client *)

(** The element builders of [kik_unofficial.datatypes.xmpp] the modelled
    methods call, and the XML parser. None of them is in [client.py]. *)
Class Collaborators : Type := {
  (** [login.EstablishAuthenticatedSessionRequest(node, username, password,
      device_id)] *)
  EstablishAuthenticatedSessionRequest :
    string -> string -> string -> option string -> XMPPElement;
  (** [login.LoginRequest(username, password, captcha_result, device_id,
      android_id)] *)
  LoginRequest :
    option string -> option string -> option string -> option string ->
    option string -> XMPPElement;
  (** [chatting.OutgoingChatMessage(peer_jid, message, is_group,
      bot_mention_jid)] *)
  OutgoingChatMessage : string -> string -> bool -> option string -> XMPPElement;
  (** [chatting.OutgoingGroupChatMessage(peer_jid, message,
      bot_mention_jid)] *)
  OutgoingGroupChatMessage : string -> string -> option string -> XMPPElement;
  (** The contents of [BeautifulSoup(data.decode(), features='xml')], or the
      exception [data.decode()] raises. *)
  BeautifulSoup : bytes -> exn + list Node
}.

(** ** class KikClient *)

Record KikClient : Type := mkClient {
  username : option string;
  password : option string;
  kik_node : option string;
  device_id_override : option string;
  android_id_override : option string;
  connected : bool;
  authenticated : bool;
  connection : option KikConnection;
  should_login_on_connection : bool;
  initial_connection_payload : option Serialized;
  xml_namespace_handlers : gmap string Handler
}.

Definition set_username (v : option string) (c : KikClient) : KikClient :=
  mkClient v (password c) (kik_node c) (device_id_override c)
    (android_id_override c) (connected c) (authenticated c) (connection c)
    (should_login_on_connection c) (initial_connection_payload c)
    (xml_namespace_handlers c).

Definition set_password (v : option string) (c : KikClient) : KikClient :=
  mkClient (username c) v (kik_node c) (device_id_override c)
    (android_id_override c) (connected c) (authenticated c) (connection c)
    (should_login_on_connection c) (initial_connection_payload c)
    (xml_namespace_handlers c).

Definition set_kik_node (v : option string) (c : KikClient) : KikClient :=
  mkClient (username c) (password c) v (device_id_override c)
    (android_id_override c) (connected c) (authenticated c) (connection c)
    (should_login_on_connection c) (initial_connection_payload c)
    (xml_namespace_handlers c).

Definition set_connected (v : bool) (c : KikClient) : KikClient :=
  mkClient (username c) (password c) (kik_node c) (device_id_override c)
    (android_id_override c) v (authenticated c) (connection c)
    (should_login_on_connection c) (initial_connection_payload c)
    (xml_namespace_handlers c).

Definition set_authenticated (v : bool) (c : KikClient) : KikClient :=
  mkClient (username c) (password c) (kik_node c) (device_id_override c)
    (android_id_override c) (connected c) v (connection c)
    (should_login_on_connection c) (initial_connection_payload c)
    (xml_namespace_handlers c).

Definition set_connection (v : option KikConnection) (c : KikClient) : KikClient :=
  mkClient (username c) (password c) (kik_node c) (device_id_override c)
    (android_id_override c) (connected c) (authenticated c) v
    (should_login_on_connection c) (initial_connection_payload c)
    (xml_namespace_handlers c).

Definition set_should_login_on_connection (v : bool) (c : KikClient) : KikClient :=
  mkClient (username c) (password c) (kik_node c) (device_id_override c)
    (android_id_override c) (connected c) (authenticated c) (connection c)
    v (initial_connection_payload c) (xml_namespace_handlers c).

Definition set_initial_connection_payload (v : option Serialized) (c : KikClient)
  : KikClient :=
  mkClient (username c) (password c) (kik_node c) (device_id_override c)
    (android_id_override c) (connected c) (authenticated c) (connection c)
    (should_login_on_connection c) v (xml_namespace_handlers c).

Definition set_xml_namespace_handlers (v : gmap string Handler) (c : KikClient)
  : KikClient :=
  mkClient (username c) (password c) (kik_node c) (device_id_override c)
    (android_id_override c) (connected c) (authenticated c) (connection c)
    (should_login_on_connection c) (initial_connection_payload c) v.

(** [self.<field> = v]. *)
Definition assign {S} (setter : S -> S) : M S unit :=
  fun s => mkRes (setter s) [] (Returned tt).

(** A method of [self.connection] called from the client: attribute access
    on [None] raises, otherwise the method runs on the connection object. *)
Definition on_connection {A} (method : M KikConnection A) : M KikClient A :=
  fun self =>
    match connection self with
    | None => mkRes self [] (Raised AttributeError)
    | Some conn =>
        let r := method conn in
        mkRes (set_connection (Some (state r)) self) (trace r) (result r)
    end.

(** [self.loop.call_soon_threadsafe(self.connection.send_raw_data, data)]:
    the bound method is looked up first. *)
Definition schedule_send (data : Serialized) : M KikClient unit :=
  let* self := get in
  match connection self with
  | None => raise AttributeError
  | Some _ => call_soon_threadsafe (SendRawData data)
  end.

(** [tag[key]]. *)
Definition getitem {S} (tag : Node) (key : string) : M S string :=
  match node_attrs tag !! key with
  | Some value => ret value
  | None => raise (KeyError key)
  end.

(** [needle in haystack] for two [str]. *)
Fixpoint str_contains (needle haystack : string) : bool :=
  String.prefix needle haystack
  || match haystack with
     | EmptyString => false
     | String _ rest => str_contains needle rest
     end.

(** The [<k anon="">] literal; [x22] is the double quote. *)
Definition anonymous_open : bytes :=
  b "<k anon=" ++ [x22; x22] ++ b ">".

(** The dictionary built by [KikClient.__init__]. *)
Definition default_xml_namespace_handlers : gmap string Handler :=
  {[ "kik:iq:check-unique" := CheckUniqueHandler;
     "jabber:iq:register" := RegisterHandler;
     "jabber:iq:roster" := RosterHandler;
     "jabber:client" := MessageHandler;
     "kik:groups" := GroupMessageHandler;
     "kik:iq:friend" := FriendMessageHandler;
     "kik:iq:friend:batch" := FriendMessageHandler;
     "kik:iq:xiphias:bridge" := XiphiasHandler ]}.

(** [is not None]. *)
Definition is_not_None {A} (v : option A) : bool :=
  match v with Some _ => true | None => false end.

Section KikClientMethods.

Context {collaborators : Collaborators}.

(** [KikClient._connect]: starts the connection thread. *)
Definition _connect : M KikClient unit := emit ThreadStart.

(** [KikClient.__init__] (logging set-up, the callback object and the loop
    object are not state of the model). *)
Definition __init__ (kik_username kik_password kik_node
                       device_id_override andoid_id_override : option string)
  : Res KikClient unit :=
  (_connect ;;;
   assign (set_xml_namespace_handlers default_xml_namespace_handlers))
    (mkClient kik_username kik_password kik_node
       device_id_override andoid_id_override
       false false None
       (is_not_None kik_username && is_not_None kik_password)
       None ∅).

(** Line 593 of [_kik_connection_thread_function]:
    [self.connection = KikConnection(self.loop, self)]. *)
Definition create_connection : M KikClient unit :=
  assign (set_connection (Some new_KikConnection)).

(** [KikClient._on_connection_made]. *)
Definition _on_connection_made : M KikClient unit :=
  let* self := get in
  let* payload :=
    match username self, password self, kik_node self with
    | Some user, Some pass, Some node =>
        log INFO "[+] Establishing authenticated connection using kik node '{}'..." ;;;
        let message :=
          EstablishAuthenticatedSessionRequest node user pass
            (device_id_override self) in
        ret (serialize message)
    | _, _, _ => ret (Bytes anonymous_open)
    end in
  assign (set_initial_connection_payload (Some payload)) ;;;
  on_connection (send_raw_data payload).

(** [KikConnection.connection_made]; it calls back into the client, so it
    is a computation on the client that owns the connection. *)
Definition connection_made (t : Transport) : M KikClient unit :=
  on_connection
    (let* self := get in
     put (mkConnection (partial_data self) (partial_data_start_tag self) (Some t))) ;;;
  log INFO "[!] Connected." ;;;
  _on_connection_made.

(** [KikClient.disconnect]. *)
Definition disconnect : M KikClient unit :=
  log INFO "[!] Disconnecting." ;;;
  on_connection close.

(** [KikClient._establish_authenticated_session]. *)
Definition _establish_authenticated_session (node : option string)
  : M KikClient unit :=
  assign (set_kik_node node) ;;;
  log INFO "[+] Closing current connection and creating a new authenticated one." ;;;
  disconnect ;;;
  _connect.

(** The [while not self.connected] loop of [_send_xmpp_element].
    [connected_reads] lists the values the successive evaluations of
    [self.connected] yield: the flag is written by the loop thread while a
    caller thread polls it. *)
Fixpoint wait_for_connection (connected_reads : list bool) : M KikClient unit :=
  match connected_reads with
  | [] => blocked
  | true :: _ => ret tt
  | false :: later =>
      log DEBUG "[!] Waiting for connection." ;;;
      emit (Sleep 0.1) ;;;
      wait_for_connection later
  end.

(** [KikClient._send_xmpp_element]. *)
Definition _send_xmpp_element (connected_reads : list bool) (message : XMPPElement)
  : M KikClient string :=
  wait_for_connection connected_reads ;;;
  match serialize message with
  | Packets packets =>
      log DEBUG "[!] Sending multi packet data." ;;;
      for_each packets (fun p => schedule_send (Bytes p)) ;;;
      ret (message_id message)
  | Bytes data =>
      schedule_send (Bytes data) ;;;
      ret (message_id message)
  end.

(** [KikClient.login]. *)
Definition login (connected_reads : list bool)
    (username password captcha_result : option string) : M KikClient string :=
  assign (set_username username) ;;;
  assign (set_password password) ;;;
  let* self := get in
  let login_request :=
    LoginRequest username password captcha_result
      (device_id_override self) (android_id_override self) in
  match password with
  | None => raise TypeError               (* len(None) *)
  | Some _ =>
      log INFO "[+] Logging in with username '{}' and a given password..."
  end ;;;
  _send_xmpp_element connected_reads login_request.

(** [KikClient.is_group_jid]. *)
Definition is_group_jid {S} (jid : string) : M S bool :=
  if str_contains "@talk.kik.com" jid then ret false
  else if str_contains "@groups.kik.com" jid then ret true
  else raise (KikApiException "Not a valid jid").

(** [KikClient.send_chat_message]. *)
Definition send_chat_message (connected_reads : list bool)
    (peer_jid message : string) (bot_mention_jid : option string)
  : M KikClient string :=
  let* is_group := is_group_jid peer_jid in
  if is_group then
    log INFO "[+] Sending chat message '{}' to group '{}'..." ;;;
    _send_xmpp_element connected_reads
      (OutgoingGroupChatMessage peer_jid message bot_mention_jid)
  else
    log INFO "[+] Sending chat message '{}' to user '{}'..." ;;;
    _send_xmpp_element connected_reads
      (OutgoingChatMessage peer_jid message false bot_mention_jid).

(** [KikClient._handle_xmlns]. *)
Definition _handle_xmlns (xmlns : string) (message : Node) : M KikClient unit :=
  let* self := get in
  match xml_namespace_handlers self !! xmlns with
  | None =>
      log WARNING
        "[-] Received unknown xml namespace: '{}', ignoring (to see full data, enable debug logs)"
  | Some handler => emit (Handle handler message)
  end.

(** [KikClient._handle_received_k_element]. On the loop thread the flag
    [login] polls is the one this method has just set. *)
Definition _handle_received_k_element (k_element : Node) : M KikClient unit :=
  let* ok := getitem k_element "ok" in
  if bool_decide (ok = "1") then
    assign (set_connected true) ;;;
    if bool_decide (is_Some (node_attrs k_element !! "ts")) then
      log INFO "[+] Authenticated successfully." ;;;
      assign (set_authenticated true) ;;;
      emit (Callback on_authenticated)
    else
      let* self := get in
      if should_login_on_connection self then
        login [connected self] (username self) (password self) None ;;;
        assign (set_should_login_on_connection false)
      else ret tt
  else
    emit (Callback (on_connection_failed k_element)).

(** [KikClient._handle_received_iq_element]. *)
Definition _handle_received_iq_element (iq_element : Node) : M KikClient unit :=
  match find "query" iq_element with
  | None => raise TypeError               (* None['xmlns:'] *)
  | Some query =>
      let* xmlns := getitem query "xmlns:" in
      _handle_xmlns xmlns iq_element
  end.

(** [self.xml_namespace_handlers['jabber:client'].handle(xmpp_message)]. *)
Definition handle_as_jabber_client (xmpp_message : Node) : M KikClient unit :=
  let* self := get in
  match xml_namespace_handlers self !! "jabber:client" with
  | None => raise (KeyError "jabber:client")
  | Some handler => emit (Handle handler xmpp_message)
  end.

(** [KikClient._handle_xmpp_message]. *)
Definition _handle_xmpp_message (xmpp_message : Node) : M KikClient unit :=
  match node_attrs xmpp_message !! "xmlns" with
  | Some xmlns => _handle_xmlns xmlns xmpp_message
  | None =>
      let* type := getitem xmpp_message "type" in
      if bool_decide (type = "receipt") then
        match find "g" xmpp_message with
        | Some _ => emit (Callback (on_group_receipts_received xmpp_message))
        | None => handle_as_jabber_client xmpp_message
        end
      else
        handle_as_jabber_client xmpp_message
  end.

(** The tag dispatch at the end of [_on_new_data_received]. *)
Definition dispatch_by_tag (xml_element : Node) : M KikClient unit :=
  (if bool_decide (node_name xml_element = Some "k") then
     _handle_received_k_element xml_element
   else ret tt) ;;;
  if bool_decide (node_name xml_element = Some "iq") then
    _handle_received_iq_element xml_element
  else if bool_decide (node_name xml_element = Some "message") then
    _handle_xmpp_message xml_element
  else if bool_decide (node_name xml_element = Some "stc") then
    emit (Callback (on_captcha_received xml_element))
  else ret tt.

(** [KikClient._on_new_data_received]. *)
Definition _on_new_data_received (data : bytes) : M KikClient unit :=
  if bool_decide (data = b " ") then
    schedule_send (Bytes (b " "))
  else
    match BeautifulSoup data with
    | inl e => raise e
    | inr contents =>
        let soup := Tag "[document]" ∅ contents in
        let xml_element :=
          match contents with
          | first :: _ => first
          | [] => soup
          end in
        dispatch_by_tag xml_element
    end.

(** [KikClient._on_connection_lost]. *)
Definition _on_connection_lost : M KikClient unit :=
  assign (set_connected false) ;;;
  log INFO "[-] The connection was lost".

(** ** The loop thread *)

(** Running a callable that was handed to [call_soon_threadsafe]. *)
Definition run_call (call : LoopCall) : M KikClient unit :=
  match call with
  | OnNewDataReceived data => _on_new_data_received data
  | SendRawData data => on_connection (send_raw_data data)
  | OnConnectionLost => _on_connection_lost
  end.

(** The calls a trace scheduled on the loop, in order. *)
Fixpoint scheduled (t : list Effect) : list LoopCall :=
  match t with
  | [] => []
  | CallSoonThreadsafe call :: rest => call :: scheduled rest
  | _ :: rest => scheduled rest
  end.

(** The loop runs the scheduled calls first in, first out; a call may
    schedule more. [turns] bounds the calls run; the calls still queued are
    returned. An exception a call raises ends that call only: asyncio
    reports it and goes on. A call that blocks stops the loop. *)
Fixpoint run_loop (turns : nat) (queue : list LoopCall)
  : M KikClient (list LoopCall) :=
  match turns, queue with
  | _, [] => ret []
  | O, _ => ret queue
  | S turns', call :: others =>
      fun self =>
        let r := run_call call self in
        match result r with
        | Blocked => mkRes (state r) (trace r) Blocked
        | Returned _ | Raised _ =>
            let r' := run_loop turns' (others ++ scheduled (trace r)) (state r) in
            mkRes (state r') (trace r ++ trace r') (result r')
        end
  end.

(** A read arrives: the transport calls [data_received] on the connection,
    then the loop runs what that scheduled. *)
Definition receive (turns : nat) (data : bytes) : M KikClient (list LoopCall) :=
  fun self =>
    let r := on_connection (data_received data) self in
    match result r with
    | Returned _ =>
        let r' := run_loop turns (scheduled (trace r)) (state r) in
        mkRes (state r') (trace r ++ trace r') (result r')
    | Raised e => mkRes (state r) (trace r) (Raised e)
    | Blocked => mkRes (state r) (trace r) Blocked
    end.

(** Connection acknowledgements handled one after the other, each in its
    own loop callback: the trace and the outcome of each. *)
Fixpoint handle_k_elements (k_elements : list Node) (self : KikClient)
  : KikClient * list (list Effect * outcome unit) :=
  match k_elements with
  | [] => (self, [])
  | k :: later =>
      let r := _handle_received_k_element k self in
      let '(final, results) := handle_k_elements later (state r) in
      (final, (trace r, result r) :: results)
  end.

End KikClientMethods.

(** The payloads a trace asks the loop to send, in order. *)
Fixpoint sends (t : list Effect) : list Serialized :=
  match t with
  | [] => []
  | CallSoonThreadsafe (SendRawData data) :: rest => data :: sends rest
  | _ :: rest => sends rest
  end.

(** The payloads a trace writes to the transport, in order. *)
Fixpoint writes (t : list Effect) : list Serialized :=
  match t with
  | [] => []
  | TransportWrite data :: rest => data :: writes rest
  | _ :: rest => writes rest
  end.

(** The handlers and callbacks a trace invokes. *)
Fixpoint invocations (t : list Effect) : list Effect :=
  match t with
  | [] => []
  | Handle handler stanza :: rest => Handle handler stanza :: invocations rest
  | Callback call :: rest => Callback call :: invocations rest
  | _ :: rest => invocations rest
  end.

(** The payloads of one element, as [_send_xmpp_element] sends them. *)
Definition payloads (message : XMPPElement) : list Serialized :=
  match serialize message with
  | Bytes data => [Bytes data]
  | Packets packets => map Bytes packets
  end.

(** ** Concrete inputs

    Reads, stanzas and collaborators at which the properties below are
    evaluated. *)

(** [n] bytes of text. *)
Definition filler (n : Z) : bytes := repeat "x"%byte (Z.to_nat n).

(** A chat stanza that arrives in three reads, the first of 16409 bytes. *)
Definition chat_first_read : bytes := b "<message type=chat><body>" ++ filler 16384.
Definition chat_middle_read : bytes := filler 100.
Definition chat_last_read : bytes := b "xyz</body></message>".

(** A read of 20 bytes. *)
Definition short_read : bytes := b "<k ok=1 ts=1234567/>".

(** A stanza of 16386 bytes whose closing tag is cut by the read boundary:
    16384 bytes, then 2. *)
Definition cut_first_read : bytes := b "<a>" ++ filler 16379 ++ b "</".
Definition cut_second_read : bytes := b "a>".

(** Builders that return fixed payloads, and a parser that knows two
    documents. *)
Definition example_collaborators : Collaborators := {|
  EstablishAuthenticatedSessionRequest node user pass device :=
    mkElement "establish-1" (Bytes (b "<k from=node_abc@talk.kik.com signed=1>"));
  LoginRequest user pass captcha device android :=
    mkElement "login-1" (Bytes (b "<iq type=set id=login-1/>"));
  OutgoingChatMessage peer_jid message is_group bot :=
    mkElement "chat-1" (Bytes (b "<message type=chat id=chat-1/>"));
  OutgoingGroupChatMessage peer_jid message bot :=
    mkElement "groupchat-1"
      (Packets [b "<message type=groupchat id=groupchat-1>"; b "</message>"]);
  BeautifulSoup data :=
    if bool_decide (data = b "<foo/>") then inr [Tag "foo" ∅ []]
    else if bool_decide (data = b "<message from=a@talk.kik.com/>") then
      inr [Tag "message" {[ "from" := "a@talk.kik.com" ]} []]
    else inr []
|}.

(** A client constructed with credentials and a node, and one constructed
    with credentials only; each with its connection object created and the
    transport established. *)
Definition connected_transport : KikConnection :=
  mkConnection None None (Some transport_object).

Definition client_with_node : KikClient :=
  set_connection (Some connected_transport)
    (state (__init__ (Some "user") (Some "secret") (Some "user_abc") None None)).

Definition client_without_node : KikClient :=
  set_connection (Some connected_transport)
    (state (__init__ (Some "user") (Some "secret") None None None)).

(** A client whose connection has a partial buffer open. *)
Definition buffering_connection : KikConnection :=
  mkConnection (Some (b "<a>gh")) (Some (b "a")) (Some transport_object).

Definition client_buffering : KikClient :=
  set_connection (Some buffering_connection) client_without_node.

(** Connection acknowledgements. *)
Definition k_ok : Node := Tag "k" {[ "ok" := "1" ]} [].
Definition k_ok_ts : Node := Tag "k" {[ "ok" := "1"; "ts" := "1234567" ]} [].
Definition k_failed : Node := Tag "k" {[ "ok" := "0" ]} [].

(** A message stanza with neither [xmlns] nor [type]. *)
Definition message_without_type : Node :=
  Tag "message" {[ "from" := "a@talk.kik.com" ]} [].

(** An element of three packets. *)
Definition three_packets : XMPPElement :=
  mkElement "img-1" (Packets [b "<message"; b " type=image>"; b "</message>"]).

(** ** Expected traces, in the words of the specification *)

(** [n] polls that found the client not connected: each logs and sleeps a
    tenth of a second. *)
Fixpoint waiting (n : nat) : list Effect :=
  match n with
  | O => []
  | S n' =>
      Log DEBUG "[!] Waiting for connection." :: Sleep 0.1 :: waiting n'
  end.

(** The writes of one element marshalled onto the loop, in list order. *)
Definition marshalled (message : XMPPElement) : list Effect :=
  match serialize message with
  | Bytes data => [CallSoonThreadsafe (SendRawData (Bytes data))]
  | Packets packets =>
      Log DEBUG "[!] Sending multi packet data."
      :: map (fun p => CallSoonThreadsafe (SendRawData (Bytes p))) packets
  end.

(** A connection acknowledgement that signals success and carries no
    session timestamp. *)
Definition success_without_ts (k_element : Node) : bool :=
  bool_decide (node_attrs k_element !! "ok" = Some "1")
  && bool_decide (node_attrs k_element !! "ts" = None).

(** [s.endswith(suffix)] for two [str]: the reading of "matches the domain
    suffix". *)
Fixpoint str_endswith (s suffix : string) : bool :=
  String.eqb s suffix
  || match s with
     | EmptyString => false
     | String _ rest => str_endswith rest suffix
     end.

(** ** Notions for the properties beyond the specification *)

(** The two buffer attributes of a connection are both [None] or both
    set. *)
Definition buffer_fields_paired (self : KikConnection) : Prop :=
  match partial_data self, partial_data_start_tag self with
  | None, None | Some _, Some _ => True
  | _, _ => False
  end.

(** The bytes a connection holds back. *)
Definition buffered (self : KikConnection) : bytes :=
  default [] (partial_data self).

(** What a connection holds back is at least one full read long. *)
Definition buffer_is_long (self : KikConnection) : Prop :=
  forall partial, partial_data self = Some partial -> 16384 <= len partial.


(** ** Further public operations *)

(** The other element builders of [kik_unofficial.datatypes.xmpp] the
    methods below call. *)
Class OtherBuilders : Type := {
  (** [sign_up.RegisterRequest(email, username, password, first_name,
      last_name, birthday, captcha_result, device_id, android_id)] *)
  RegisterRequest :
    string -> option string -> option string -> string -> string -> string ->
    option string -> option string -> option string -> XMPPElement;
  (** [account.ChangePasswordRequest(old_password, new_password, email,
      username)] *)
  ChangePasswordRequest :
    option string -> string -> string -> option string -> XMPPElement;
  (** [account.ChangeEmailRequest(password, old_email, new_email)] *)
  ChangeEmailRequest : option string -> string -> string -> XMPPElement;
  (** [chatting.OutgoingChatImage(peer_jid, file, is_group, forward)] *)
  OutgoingChatImage : string -> string -> bool -> bool -> XMPPElement;
  (** [chatting.OutgoingGroupChatImage(peer_jid, file, forward)] *)
  OutgoingGroupChatImage : string -> string -> bool -> XMPPElement;
  (** [chatting.OutgoingIsTypingEvent(peer_jid, is_typing)] *)
  OutgoingIsTypingEvent : string -> bool -> XMPPElement;
  (** [chatting.OutgoingGroupIsTypingEvent(peer_jid, is_typing)] *)
  OutgoingGroupIsTypingEvent : string -> bool -> XMPPElement;
  (** [chatting.OutgoingGIFMessage(peer_jid, search_term, is_group)] *)
  OutgoingGIFMessage : string -> string -> bool -> XMPPElement;
  (** [chatting.OutgoingReadReceipt(peer_jid, receipt_message_id,
      group_jid)] *)
  OutgoingReadReceipt : string -> string -> option string -> XMPPElement;
  (** [chatting.OutgoingDeliveredReceipt(peer_jid, receipt_message_id)] *)
  OutgoingDeliveredReceipt : string -> string -> XMPPElement
}.

Section OtherOperations.

Context {builders : OtherBuilders}.

(** [KikClient.register]. *)
Definition register (connected_reads : list bool) (email : string)
    (username password : option string) (first_name last_name birthday : string)
    (captcha_result : option string) : M KikClient string :=
  assign (set_username username) ;;;
  assign (set_password password) ;;;
  let* self := get in
  let register_message :=
    RegisterRequest email username password first_name last_name birthday
      captcha_result (device_id_override self) (android_id_override self) in
  log INFO "[+] Sending sign up request (name: {} {}, email: {})..." ;;;
  _send_xmpp_element connected_reads register_message.

(** [KikClient.send_chat_image]. *)
Definition send_chat_image (connected_reads : list bool)
    (peer_jid file : string) (forward : bool) : M KikClient string :=
  let* is_group := is_group_jid peer_jid in
  if is_group then
    log INFO "[+] Sending chat image to group '{}'..." ;;;
    _send_xmpp_element connected_reads
      (OutgoingGroupChatImage peer_jid file forward)
  else
    log INFO "[+] Sending chat image to user '{}'..." ;;;
    _send_xmpp_element connected_reads
      (OutgoingChatImage peer_jid file false forward).

(** [KikClient.send_read_receipt]. *)
Definition send_read_receipt (connected_reads : list bool)
    (peer_jid receipt_message_id : string) (group_jid : option string)
  : M KikClient string :=
  log INFO "[+] Sending read receipt to JID {} for message ID {}" ;;;
  _send_xmpp_element connected_reads
    (OutgoingReadReceipt peer_jid receipt_message_id group_jid).

(** [KikClient.send_delivered_receipt]. *)
Definition send_delivered_receipt (connected_reads : list bool)
    (peer_jid receipt_message_id : string) : M KikClient string :=
  log INFO "[+] Sending delivered receipt to JID {} for message ID {}" ;;;
  _send_xmpp_element connected_reads
    (OutgoingDeliveredReceipt peer_jid receipt_message_id).

(** [KikClient.send_is_typing]. *)
Definition send_is_typing (connected_reads : list bool)
    (peer_jid : string) (is_typing : bool) : M KikClient string :=
  let* is_group := is_group_jid peer_jid in
  if is_group then
    _send_xmpp_element connected_reads
      (OutgoingGroupIsTypingEvent peer_jid is_typing)
  else
    _send_xmpp_element connected_reads
      (OutgoingIsTypingEvent peer_jid is_typing).

(** [KikClient.send_gif_image]. *)
Definition send_gif_image (connected_reads : list bool)
    (peer_jid search_term : string) : M KikClient string :=
  let* is_group := is_group_jid peer_jid in
  if is_group then
    log INFO "[+] Sending a GIF message to group '{}'..." ;;;
    _send_xmpp_element connected_reads
      (OutgoingGIFMessage peer_jid search_term true)
  else
    log INFO "[+] Sending a GIF message to user '{}'..." ;;;
    _send_xmpp_element connected_reads
      (OutgoingGIFMessage peer_jid search_term false).

(** [KikClient.change_password]. *)
Definition change_password (connected_reads : list bool)
    (new_password email : string) : M KikClient string :=
  log INFO "[+] Changing the password of the account" ;;;
  let* self := get in
  _send_xmpp_element connected_reads
    (ChangePasswordRequest (password self) new_password email (username self)).

(** [KikClient.change_email]. *)
Definition change_email (connected_reads : list bool)
    (old_email new_email : string) : M KikClient string :=
  log INFO "[+] Changing account email to '{}'" ;;;
  let* self := get in
  _send_xmpp_element connected_reads
    (ChangeEmailRequest (password self) old_email new_email).

End OtherOperations.

(** Builders that put their arguments into the payload, so that two
    elements built from different arguments differ. *)
Definition quoted (v : option string) : bytes :=
  match v with
  | Some s => b s
  | None => b "None"
  end.

Definition example_builders : OtherBuilders := {|
  RegisterRequest email user pass first last birthday captcha device android :=
    mkElement "register-1" (Bytes (b "<iq register " ++ quoted user ++ b "/>"));
  ChangePasswordRequest old new email user :=
    mkElement "password-1"
      (Bytes (b "<iq passwd old=" ++ quoted old ++ b " new=" ++ b new ++ b "/>"));
  ChangeEmailRequest pass old new :=
    mkElement "email-1" (Bytes (b "<iq email pass=" ++ quoted pass ++ b "/>"));
  OutgoingChatImage peer file is_group forward :=
    mkElement "image-1" (Bytes (b "<message type=chat image/>"));
  OutgoingGroupChatImage peer file forward :=
    mkElement "group-image-1" (Bytes (b "<message type=groupchat image/>"));
  OutgoingIsTypingEvent peer typing :=
    mkElement "typing-1" (Bytes (b "<message type=is-typing/>"));
  OutgoingGroupIsTypingEvent peer typing :=
    mkElement "group-typing-1" (Bytes (b "<message type=groupchat is-typing/>"));
  OutgoingGIFMessage peer term is_group :=
    mkElement "gif-1" (Bytes (b "<message gif/>"));
  OutgoingReadReceipt peer receipt group :=
    mkElement "read-1" (Bytes (b "<message type=receipt read/>"));
  OutgoingDeliveredReceipt peer receipt :=
    mkElement "delivered-1" (Bytes (b "<message type=receipt delivered/>"))
|}.

(** A client with a connection object whose transport is not established
    yet, and one with no connection object. *)
Definition client_before_transport : KikClient :=
  set_connection (Some new_KikConnection) client_without_node.

Definition client_without_connection : KikClient :=
  state (__init__ (Some "user") (Some "secret") None None None).

(** An [iq] stanza with a query in a registered namespace, one without a
    query, and one whose query has no namespace. *)
Definition iq_roster : Node :=
  Tag "iq" {[ "type" := "result" ]}
    [Tag "query" {[ "xmlns:" := "jabber:iq:roster" ]} []].
Definition iq_without_query : Node := Tag "iq" {[ "type" := "result" ]} [].
Definition iq_without_namespace : Node :=
  Tag "iq" {[ "type" := "result" ]} [Tag "query" ∅ []].

(** A group receipt and a chat message without [xmlns]. *)
Definition group_receipt : Node :=
  Tag "message" {[ "type" := "receipt" ]} [Tag "g" {[ "jid" := "1_g@groups.kik.com" ]} []].
Definition chat_without_xmlns : Node :=
  Tag "message" {[ "type" := "chat" ]} [Tag "body" ∅ [NavigableString "hi"]].

(** Collaborators whose parser also knows the acknowledgement
    [short_read]. *)
Definition acknowledging_collaborators : Collaborators := {|
  EstablishAuthenticatedSessionRequest :=
    EstablishAuthenticatedSessionRequest (Collaborators := example_collaborators);
  LoginRequest := LoginRequest (Collaborators := example_collaborators);
  OutgoingChatMessage := OutgoingChatMessage (Collaborators := example_collaborators);
  OutgoingGroupChatMessage :=
    OutgoingGroupChatMessage (Collaborators := example_collaborators);
  BeautifulSoup data :=
    if bool_decide (data = short_read) then inr [k_ok_ts]
    else BeautifulSoup (Collaborators := example_collaborators) data
|}.

(** * Properties *)

(** ** Python's [bytes] operations *)

Section PyBytesFacts.

Implicit Types data suffix chunk : bytes.

Lemma endswith_suffix data suffix :
  PyBytes.endswith data suffix = true <-> suffix `suffix_of` data.
Proof.
  unfold PyBytes.endswith.
  rewrite andb_true_iff, !bool_decide_eq_true. split.
  - intros [_ Hdrop].
    exists (take (length data - length suffix) data).
    rewrite <- Hdrop at 2. symmetry. apply take_drop.
  - intros [before ->]. rewrite length_app. split; [lia|].
    replace (length before + length suffix - length suffix)%nat
      with (length before) by lia.
    apply drop_app_length.
Qed.

Lemma endswith_not_suffix data suffix :
  PyBytes.endswith data suffix = false <-> ~ suffix `suffix_of` data.
Proof.
  rewrite <- endswith_suffix. destruct (PyBytes.endswith data suffix); split;
    [discriminate | intros []; reflexivity | discriminate | reflexivity].
Qed.

(** A suffix no longer than the last chunk is decided by that chunk. *)
Lemma endswith_app before chunk suffix :
  (length suffix <= length chunk)%nat ->
  PyBytes.endswith (before ++ chunk) suffix = PyBytes.endswith chunk suffix.
Proof.
  intros Hlen. unfold PyBytes.endswith. rewrite length_app.
  rewrite drop_app_ge by lia.
  replace (length before + length chunk - length suffix - length before)%nat
    with (length chunk - length suffix)%nat by lia.
  rewrite (bool_decide_eq_true_2 (length suffix <= length chunk)%nat) by lia.
  rewrite (bool_decide_eq_true_2 (length suffix <= _ + _)%nat) by lia.
  reflexivity.
Qed.

(** Data shorter than the suffix never ends with it. *)
Lemma endswith_shorter data suffix :
  (length data < length suffix)%nat -> PyBytes.endswith data suffix = false.
Proof.
  intros Hlen. unfold PyBytes.endswith.
  rewrite bool_decide_eq_false_2 by lia. reflexivity.
Qed.

Lemma lstrip_strip_leading (c : byte) data :
  PyBytes.lstrip [c] data = FramingSpec.strip_leading c data.
Proof.
  induction data as [|x rest IH]; simpl; [reflexivity|].
  rewrite <- IH.
  rewrite (bool_decide_ext (x ∈ [c]) (x = c)) by apply list_elem_of_singleton.
  reflexivity.
Qed.

Lemma item0_split (sep : byte) data :
  PyBytes.item0 (PyBytes.split sep data) = FramingSpec.cut_at sep data.
Proof.
  unfold PyBytes.item0.
  induction data as [|x rest IH]; simpl; [reflexivity|].
  case_bool_decide; [reflexivity|].
  destruct (PyBytes.split sep rest); simpl in *; rewrite <- IH; reflexivity.
Qed.

Lemma strip_slash_cases data :
  (if PyBytes.endswith data (b "/") then PyBytes.but_last data else data)
  = FramingSpec.strip_one_trailing "/"%byte data.
Proof.
  unfold FramingSpec.strip_one_trailing.
  destruct (reverse data) as [|x before] eqn:Hrev.
  - apply (f_equal reverse) in Hrev. rewrite reverse_involutive in Hrev.
    subst data. reflexivity.
  - apply (f_equal reverse) in Hrev.
    rewrite reverse_involutive, reverse_cons in Hrev. subst data.
    case_bool_decide as Hx.
    + subst x. rewrite (proj2 (endswith_suffix _ _)) by (eexists; reflexivity).
      unfold PyBytes.but_last. rewrite length_app. simpl.
      replace (length (reverse before) + 1 - 1)%nat
        with (length (reverse before)) by lia.
      apply take_app_length.
    + rewrite (proj2 (endswith_not_suffix _ _)); [reflexivity|].
      intros [k Hk]. change (b "/") with ["/"%byte] in Hk.
      apply app_inj_tail in Hk as [_ ?]. congruence.
Qed.

End PyBytesFacts.

(** ** The framing layer *)

Section Framing.

Implicit Types (self : KikConnection) (data chunk partial tag : bytes).

(** [parse_start_tag] computes the opening tag name of the specification. *)
Lemma parse_start_tag_opening_tag_name data :
  fst (parse_start_tag data) = FramingSpec.opening_tag_name data.
Proof.
  unfold parse_start_tag, FramingSpec.opening_tag_name.
  change (b "<") with ["<"%byte].
  rewrite lstrip_strip_leading, !item0_split, <- strip_slash_cases.
  destruct (PyBytes.endswith _ _); reflexivity.
Qed.

Lemma ends_with_tag_closing_tag tag data :
  ends_with_tag tag data = true <-> FramingSpec.closing_tag tag `suffix_of` data.
Proof. apply endswith_suffix. Qed.

Lemma closing_tag_length tag :
  length (FramingSpec.closing_tag tag) = (length tag + 3)%nat.
Proof.
  unfold FramingSpec.closing_tag. rewrite !length_app. simpl. lia.
Qed.

(** One more iteration of a [for] loop whose body returned. *)
Lemma for_each_cons_returned {S A} (body : A -> M S unit) x xs s s' t :
  body x s = mkRes s' t (Returned tt) ->
  for_each (x :: xs) body s
  = mkRes (state (for_each xs body s')) (t ++ trace (for_each xs body s'))
      (result (for_each xs body s')).
Proof. intros Hbody. simpl. unfold bind. rewrite Hbody. reflexivity. Qed.

Lemma dispatched_app (t1 t2 : list Effect) :
  dispatched (t1 ++ t2) = dispatched t1 ++ dispatched t2.
Proof.
  induction t1 as [|e t1 IH]; simpl; [reflexivity|].
  destruct e as [| [] | | | | | |]; simpl; rewrite IH; reflexivity.
Qed.

(** No buffer, a short read: the read is one stanza. *)
Lemma data_received_short self data :
  partial_data self = None -> len data < 16384 ->
  data_received data self
  = mkRes self
      [Log DEBUG "[+] Received raw data: %s";
       CallSoonThreadsafe (OnNewDataReceived data)]
      (Returned tt).
Proof.
  intros Hnone Hlen. unfold data_received, bind, log, emit, get. simpl.
  rewrite Hnone. apply Z.ltb_lt in Hlen. rewrite Hlen. reflexivity.
Qed.

(** No buffer, a long read: the buffer starts. *)
Lemma data_received_long self data :
  partial_data self = None -> 16384 <= len data ->
  data_received data self
  = mkRes (mkConnection (Some data) (Some (fst (parse_start_tag data)))
             (transport self))
      [Log DEBUG "[+] Received raw data: %s";
       Log DEBUG "Multi-packet data, waiting for next packet."]
      (Returned tt).
Proof.
  intros Hnone Hlen. unfold data_received, bind, log, emit, get. simpl.
  rewrite Hnone. apply Z.ltb_ge in Hlen. rewrite Hlen.
  destruct (parse_start_tag data). reflexivity.
Qed.

(** A buffer, and the read ends with the closing tag. *)
Lemma data_received_complete self partial tag data :
  partial_data self = Some partial -> partial_data_start_tag self = Some tag ->
  ends_with_tag tag data = true ->
  data_received data self
  = mkRes (mkConnection None None (transport self))
      [Log DEBUG "[+] Received raw data: %s";
       CallSoonThreadsafe (OnNewDataReceived (partial ++ data))]
      (Returned tt).
Proof.
  intros Hpartial Htag Hends. unfold data_received, bind, log, emit, get. simpl.
  rewrite Hpartial, Htag, Hends. reflexivity.
Qed.

(** A buffer, and the read does not end with the closing tag. *)
Lemma data_received_incomplete self partial tag data :
  partial_data self = Some partial -> partial_data_start_tag self = Some tag ->
  ends_with_tag tag data = false ->
  data_received data self
  = mkRes (mkConnection (Some (partial ++ data)) (Some tag) (transport self))
      [Log DEBUG "[+] Received raw data: %s";
       Log DEBUG "[!] Waiting for another packet, size={}"]
      (Returned tt).
Proof.
  intros Hpartial Htag Hends. unfold data_received, bind, log, emit, get. simpl.
  rewrite Hpartial, Htag, Hends. reflexivity.
Qed.

(** With a buffer open, reads that do not end with the closing tag pile up
    and the first read that does releases everything, once. *)
Lemma feed_until_closing_tag middle : forall self partial tag last,
  partial_data self = Some partial -> partial_data_start_tag self = Some tag ->
  Forall (fun chunk => ends_with_tag tag chunk = false) middle ->
  ends_with_tag tag last = true ->
  let r := feed (middle ++ [last]) self in
  dispatched (trace r) = [partial ++ concat middle ++ last]
  /\ state r = mkConnection None None (transport self)
  /\ result r = Returned tt.
Proof.
  induction middle as [|chunk middle IH];
    intros self partial tag last Hpartial Htag Hmiddle Hlast; unfold feed.
  - simpl app.
    rewrite (for_each_cons_returned _ _ _ _ _ _
               (data_received_complete _ _ _ _ Hpartial Htag Hlast)).
    simpl. auto.
  - apply Forall_cons in Hmiddle as [Hchunk Hmiddle].
    rewrite <- app_comm_cons.
    rewrite (for_each_cons_returned _ _ _ _ _ _
               (data_received_incomplete _ _ _ _ Hpartial Htag Hchunk)).
    cbn [state trace result].
    specialize (IH (mkConnection (Some (partial ++ chunk)) (Some tag)
                      (transport self))
                  (partial ++ chunk) tag last eq_refl eq_refl Hmiddle Hlast).
    unfold feed in IH. cbn zeta in IH. destruct IH as (Hd & Hs & Hr).
    rewrite dispatched_app, Hd, Hs, Hr. simpl.
    rewrite <- !app_assoc. auto.
Qed.

End Framing.

(** ** C1: a read while no partial buffer is open *)

(** C1. While no partial buffer is open, a read shorter than 16384 bytes is
    handed on at once and unchanged as one stanza, and nothing else happens;
    a read of 16384 bytes or more is not handed on: it opens the partial
    buffer, which holds the read and the opening tag name (leading [<]
    stripped, cut at the first [>], then at the first space, one trailing
    [/] stripped). *)
Theorem data_received_without_partial_buffer (self : KikConnection) (data : bytes) :
  partial_data self = None ->
  (len data < 16384 ->
     data_received data self
     = mkRes self
         [Log DEBUG "[+] Received raw data: %s";
          CallSoonThreadsafe (OnNewDataReceived data)]
         (Returned tt))
  /\ (16384 <= len data ->
     data_received data self
     = mkRes (mkConnection (Some data)
                (Some (FramingSpec.opening_tag_name data)) (transport self))
         [Log DEBUG "[+] Received raw data: %s";
          Log DEBUG "Multi-packet data, waiting for next packet."]
         (Returned tt)
     /\ dispatched (trace (data_received data self)) = []).
Proof.
  intros Hnone. split; intros Hlen.
  - apply data_received_short; assumption.
  - rewrite (data_received_long _ _ Hnone Hlen), parse_start_tag_opening_tag_name.
    split; reflexivity.
Qed.

Lemma data_received_without_partial_buffer_witness :
  data_received short_read new_KikConnection
  = mkRes new_KikConnection
      [Log DEBUG "[+] Received raw data: %s";
       CallSoonThreadsafe (OnNewDataReceived short_read)]
      (Returned tt)
  /\ data_received chat_first_read new_KikConnection
    = mkRes (mkConnection (Some chat_first_read)
               (Some (FramingSpec.opening_tag_name chat_first_read)) None)
        [Log DEBUG "[+] Received raw data: %s";
         Log DEBUG "Multi-packet data, waiting for next packet."]
        (Returned tt)
  /\ bool_decide (FramingSpec.opening_tag_name chat_first_read = b "message") = true.
Proof.
  split; [|split].
  - apply (data_received_without_partial_buffer new_KikConnection short_read eq_refl).
    vm_compute. reflexivity.
  - apply (data_received_without_partial_buffer new_KikConnection chat_first_read eq_refl).
    vm_compute. discriminate.
  - vm_compute. reflexivity.
Defined.

(** ** C2: a read while the partial buffer is open *)

(** What [data_received] does while the partial buffer is open, against
    which C2 is measured. The test for the end of the stanza is made on the
    read alone, not on the buffer with the read appended: the stanza is
    taken as complete exactly when the read itself ends with the closing
    tag of the stored tag name; for a read at least as long as the closing
    tag the two tests agree. On completion the buffer followed by the read
    is handed on, once, and the buffer is cleared; otherwise nothing is
    handed on and the read is appended. So a stanza delivered as a first
    read of at least 16384 bytes, any number of reads that do not end with
    the closing tag of its opening tag name, and a last read that does, is
    handed on exactly once with its original bytes. *)
Theorem data_received_with_partial_buffer :
  (forall (self : KikConnection) (partial tag data : bytes),
     partial_data self = Some partial ->
     partial_data_start_tag self = Some tag ->
     (FramingSpec.closing_tag tag `suffix_of` data ->
        data_received data self
        = mkRes (mkConnection None None (transport self))
            [Log DEBUG "[+] Received raw data: %s";
             CallSoonThreadsafe (OnNewDataReceived (partial ++ data))]
            (Returned tt))
     /\ (~ FramingSpec.closing_tag tag `suffix_of` data ->
        data_received data self
        = mkRes (mkConnection (Some (partial ++ data)) (Some tag) (transport self))
            [Log DEBUG "[+] Received raw data: %s";
             Log DEBUG "[!] Waiting for another packet, size={}"]
            (Returned tt))
     /\ ((length (FramingSpec.closing_tag tag) <= length data)%nat ->
        (FramingSpec.closing_tag tag `suffix_of` data
         <-> FramingSpec.closing_tag tag `suffix_of` partial ++ data)))
  /\ (forall (self : KikConnection) (first : bytes) (middle : list bytes)
        (last : bytes),
     partial_data self = None ->
     16384 <= len first ->
     Forall (fun chunk =>
               ~ FramingSpec.closing_tag (FramingSpec.opening_tag_name first)
                   `suffix_of` chunk) middle ->
     FramingSpec.closing_tag (FramingSpec.opening_tag_name first) `suffix_of` last ->
     dispatched (trace (feed (first :: middle ++ [last]) self))
     = [first ++ concat middle ++ last]
     /\ state (feed (first :: middle ++ [last]) self)
        = mkConnection None None (transport self)
     /\ result (feed (first :: middle ++ [last]) self) = Returned tt).
Proof.
  split.
  - intros self partial tag data Hpartial Htag. split; [|split].
    + intros Hends. apply ends_with_tag_closing_tag in Hends.
      apply (data_received_complete self partial tag data); assumption.
    + intros Hends. apply endswith_not_suffix in Hends.
      apply (data_received_incomplete self partial tag data); assumption.
    + intros Hlen. rewrite <- !endswith_suffix, endswith_app by exact Hlen.
      reflexivity.
  - intros self first middle last Hnone Hlen Hmiddle Hlast.
    rewrite <- parse_start_tag_opening_tag_name in Hmiddle, Hlast.
    unfold feed.
    rewrite (for_each_cons_returned _ _ _ _ _ _
               (data_received_long _ _ Hnone Hlen)).
    cbn [state trace result].
    destruct (feed_until_closing_tag middle
                (mkConnection (Some first) (Some (fst (parse_start_tag first)))
                   (transport self))
                first (fst (parse_start_tag first)) last eq_refl eq_refl)
      as (Hd & Hs & Hr).
    + eapply Forall_impl; [exact Hmiddle|]. intros chunk Hchunk.
      apply endswith_not_suffix. exact Hchunk.
    + apply endswith_suffix. exact Hlast.
    + unfold feed in Hd, Hs, Hr. rewrite dispatched_app, Hd, Hs, Hr. auto.
Qed.

Lemma data_received_with_partial_buffer_witness :
  data_received (b "ij</a>") (mkConnection (Some (b "<a>gh")) (Some (b "a")) None)
  = mkRes (mkConnection None None None)
      [Log DEBUG "[+] Received raw data: %s";
       CallSoonThreadsafe (OnNewDataReceived (b "<a>gh" ++ b "ij</a>"))]
      (Returned tt)
  /\ dispatched
       (trace (feed (chat_first_read :: [chat_middle_read] ++ [chat_last_read])
                 new_KikConnection))
     = [chat_first_read ++ concat [chat_middle_read] ++ chat_last_read].
Proof.
  destruct data_received_with_partial_buffer as [Hstep Hfeed]. split.
  - apply (Hstep (mkConnection (Some (b "<a>gh")) (Some (b "a")) None)
             (b "<a>gh") (b "a") (b "ij</a>") eq_refl eq_refl).
    exists (b "ij"). reflexivity.
  - apply (Hfeed new_KikConnection chat_first_read [chat_middle_read]
             chat_last_read eq_refl).
    + vm_compute. discriminate.
    + constructor; [|constructor]. apply endswith_not_suffix.
      vm_compute. reflexivity.
    + apply endswith_suffix. vm_compute. reflexivity.
Defined.

(** C2 at a stanza whose closing tag is cut by the read boundary. The
    first read, of 16384 bytes, opens the buffer with tag name [a]; the
    second read is [a>]. With it appended the buffer ends with [</a>], the
    closing tag of the stored tag, and the two reads are the whole stanza,
    in order: C2 asks for it to be handed on, once, and for the buffer to
    be cleared. [data_received] tests the second read alone, hands nothing
    on and keeps the buffer open. *)
Lemma closing_tag_cut_by_read_boundary :
  len cut_first_read = 16384
  /\ partial_data_start_tag (state (data_received cut_first_read new_KikConnection))
     = Some (b "a")
  /\ FramingSpec.closing_tag (b "a") `suffix_of` cut_first_read ++ cut_second_read
  /\ dispatched (trace (feed [cut_first_read; cut_second_read] new_KikConnection))
     = []
  /\ is_not_None
       (partial_data (state (feed [cut_first_read; cut_second_read]
                               new_KikConnection))) = true.
Proof.
  split; [|split; [|split; [|split]]].
  - vm_compute. reflexivity.
  - vm_compute. reflexivity.
  - apply endswith_suffix. vm_compute. reflexivity.
  - vm_compute. reflexivity.
  - vm_compute. reflexivity.
Qed.

(** What arrives after the cut closing tag is swallowed: a further stanza
    and a keep-alive are appended to the buffer, and the next read that
    ends with [</a>] releases all five reads joined into one stanza. *)
Example reads_after_cut_closing_tag_are_merged :
  dispatched
    (trace (feed (cut_first_read
                  :: [cut_second_read; short_read; b " "] ++ [b "<a>ok</a>"])
              new_KikConnection))
  = [cut_first_read ++ concat [cut_second_read; short_read; b " "]
     ++ b "<a>ok</a>"].
Proof.
  apply (proj2 data_received_with_partial_buffer new_KikConnection
           cut_first_read [cut_second_read; short_read; b " "] (b "<a>ok</a>")
           eq_refl).
  - vm_compute. discriminate.
  - repeat constructor; apply endswith_not_suffix; vm_compute; reflexivity.
  - apply endswith_suffix. vm_compute. reflexivity.
Qed.

(** ** The monad on a client *)

(** Rewriting a state with the value a field already has. *)
Lemma set_connection_same (self : KikClient) (conn : KikConnection) :
  connection self = Some conn -> set_connection (Some conn) self = self.
Proof. destruct self. simpl. intros ->. reflexivity. Qed.

Ltac run_method :=
  unfold schedule_send, getitem, on_connection, log, call_soon_threadsafe;
  unfold bind, ret, raise, blocked, emit, get, put, assign;
  cbn [state trace result app].

(** ** C6: the public send *)

Section PublicSend.

Implicit Types (self : KikClient) (message : XMPPElement).

Lemma schedule_send_connected self conn data :
  connection self = Some conn ->
  schedule_send data self
  = mkRes self [CallSoonThreadsafe (SendRawData data)] (Returned tt).
Proof. intros Hconn. run_method. rewrite Hconn. reflexivity. Qed.

Lemma for_each_schedule_send self conn (packets : list bytes) :
  connection self = Some conn ->
  for_each packets (fun p => schedule_send (Bytes p)) self
  = mkRes self (map (fun p => CallSoonThreadsafe (SendRawData (Bytes p))) packets)
      (Returned tt).
Proof.
  intros Hconn. induction packets as [|p packets IH].
  - reflexivity.
  - rewrite (for_each_cons_returned (fun p => schedule_send (Bytes p))
               p packets self self _
               (schedule_send_connected _ _ (Bytes p) Hconn)).
    rewrite IH. reflexivity.
Qed.

Lemma wait_for_connection_returns (n : nat) (later : list bool) self :
  wait_for_connection (repeat false n ++ true :: later) self
  = mkRes self (waiting n) (Returned tt).
Proof.
  induction n as [|n IH]; [reflexivity|].
  simpl. run_method. rewrite IH. reflexivity.
Qed.

Lemma wait_for_connection_blocks (n : nat) self :
  wait_for_connection (repeat false n) self = mkRes self (waiting n) Blocked.
Proof.
  induction n as [|n IH]; [reflexivity|].
  simpl. run_method. rewrite IH. reflexivity.
Qed.

(** Once the flag reads true, the writes are marshalled in order. *)
Lemma marshal_element self conn message :
  connection self = Some conn ->
  (match serialize message with
   | Packets packets =>
       log DEBUG "[!] Sending multi packet data." ;;;
       for_each packets (fun p => schedule_send (Bytes p)) ;;;
       ret (message_id message)
   | Bytes data =>
       schedule_send (Bytes data) ;;;
       ret (message_id message)
   end) self
  = mkRes self (marshalled message) (Returned (message_id message)).
Proof.
  intros Hconn. unfold marshalled. destruct (serialize message) as [data|packets].
  - unfold bind. rewrite (schedule_send_connected _ _ _ Hconn). reflexivity.
  - unfold bind at 1. unfold log, emit. cbn [state trace result].
    unfold bind. rewrite (for_each_schedule_send _ _ _ Hconn).
    cbn [state trace result ret]. rewrite app_nil_r. reflexivity.
Qed.

Lemma sends_marshalled message : sends (marshalled message) = payloads message.
Proof.
  unfold marshalled, payloads. destruct (serialize message) as [data|packets].
  - reflexivity.
  - simpl. induction packets as [|p packets IH]; simpl; [|rewrite IH]; reflexivity.
Qed.

(** C6. A send whose first [n] polls of the connected flag read false and
    whose next poll reads true sleeps a tenth of a second after each of the
    [n] failed polls, then marshals the write of every payload of the element
    onto the loop in list order and returns the element's [message_id]; while
    every poll so far has read false the call has marshalled nothing and has
    not returned. *)
Theorem send_xmpp_element_blocks_until_connected
    self conn message (n : nat) (later : list bool) :
  connection self = Some conn ->
  _send_xmpp_element (repeat false n ++ true :: later) message self
  = mkRes self (waiting n ++ marshalled message) (Returned (message_id message))
  /\ _send_xmpp_element (repeat false n) message self
     = mkRes self (waiting n) Blocked
  /\ sends (waiting n ++ marshalled message) = payloads message.
Proof.
  intros Hconn. unfold _send_xmpp_element. split; [|split].
  - unfold bind at 1. rewrite wait_for_connection_returns.
    cbn [state trace result]. rewrite (marshal_element _ _ _ Hconn). reflexivity.
  - unfold bind at 1. rewrite wait_for_connection_blocks. reflexivity.
  - rewrite <- sends_marshalled. induction n as [|n IH]; [reflexivity|exact IH].
Qed.

Lemma send_xmpp_element_blocks_until_connected_witness :
  _send_xmpp_element [false; false; true] three_packets client_without_node
  = mkRes client_without_node
      [Log DEBUG "[!] Waiting for connection."; Sleep 0.1;
       Log DEBUG "[!] Waiting for connection."; Sleep 0.1;
       Log DEBUG "[!] Sending multi packet data.";
       CallSoonThreadsafe (SendRawData (Bytes (b "<message")));
       CallSoonThreadsafe (SendRawData (Bytes (b " type=image>")));
       CallSoonThreadsafe (SendRawData (Bytes (b "</message>")))]
      (Returned "img-1").
Proof.
  exact (proj1 (send_xmpp_element_blocks_until_connected
                  client_without_node connected_transport three_packets
                  2 [] eq_refl)).
Defined.

End PublicSend.

(** ** C5: the handshake when the transport is established *)

Section Handshake.

Context {collaborators : Collaborators}.

Implicit Types (self : KikClient) (conn : KikConnection) (t : Transport).

(** The literal of the anonymous open, byte by byte: [<k anon="">]. *)
Example anonymous_open_bytes :
  anonymous_open
  = ["<"; "k"; " "; "a"; "n"; "o"; "n"; "="; x22; x22; ">"]%byte.
Proof. reflexivity. Qed.

Lemma connection_made_with_identity self conn t user pass node :
  connection self = Some conn ->
  username self = Some user -> password self = Some pass ->
  kik_node self = Some node ->
  trace (connection_made t self)
  = [Log INFO "[!] Connected.";
     Log INFO "[+] Establishing authenticated connection using kik node '{}'...";
     Log DEBUG "[+] Sending raw data: %s";
     TransportWrite
       (serialize (EstablishAuthenticatedSessionRequest node user pass
                     (device_id_override self)))]
  /\ result (connection_made t self) = Returned tt.
Proof.
  intros Hconn Huser Hpass Hnode.
  destruct self; simpl in Hconn, Huser, Hpass, Hnode; subst.
  split; reflexivity.
Qed.

Lemma connection_made_anonymous self conn t :
  connection self = Some conn ->
  username self = None \/ password self = None \/ kik_node self = None ->
  trace (connection_made t self)
  = [Log INFO "[!] Connected.";
     Log DEBUG "[+] Sending raw data: %s";
     TransportWrite (Bytes anonymous_open)]
  /\ result (connection_made t self) = Returned tt.
Proof.
  intros Hconn Hmissing.
  destruct self as [user pass node ? ? ? ? ? ? ? ?];
    simpl in Hconn, Hmissing; subst.
  destruct user, pass, node; try (split; reflexivity);
    destruct Hmissing as [?|[?|?]]; discriminate.
Qed.

(** What the node-discovery reconnection leaves for the next handshake. *)
Lemma reconnection_state self conn node :
  connection self = Some conn ->
  let reconnected :=
    state (create_connection
             (state (_establish_authenticated_session (Some node) self))) in
  connection reconnected = Some new_KikConnection
  /\ username reconnected = username self
  /\ password reconnected = password self
  /\ kik_node reconnected = Some node
  /\ device_id_override reconnected = device_id_override self.
Proof.
  intros Hconn.
  destruct self; simpl in Hconn; subst.
  destruct conn as [? ? [wire|]]; repeat split; reflexivity.
Qed.

(** C5. When the transport is established: with username, password and
    node all known, exactly one payload is written, the serialised
    session-establishment element (the anonymous open is written in the
    other branch only); otherwise the one payload written is the literal
    [<k anon="">]. After a node-discovery reconnection of a client that
    holds its credentials, the new handshake writes the session-establishment
    element for the discovered node. *)
Theorem handshake_on_transport_established self conn t :
  connection self = Some conn ->
  (forall user pass node,
     username self = Some user -> password self = Some pass ->
     kik_node self = Some node ->
     trace (connection_made t self)
     = [Log INFO "[!] Connected.";
        Log INFO "[+] Establishing authenticated connection using kik node '{}'...";
        Log DEBUG "[+] Sending raw data: %s";
        TransportWrite
          (serialize (EstablishAuthenticatedSessionRequest node user pass
                        (device_id_override self)))]
     /\ result (connection_made t self) = Returned tt)
  /\ (username self = None \/ password self = None \/ kik_node self = None ->
     trace (connection_made t self)
     = [Log INFO "[!] Connected.";
        Log DEBUG "[+] Sending raw data: %s";
        TransportWrite (Bytes anonymous_open)]
     /\ result (connection_made t self) = Returned tt)
  /\ (forall user pass node,
     username self = Some user -> password self = Some pass ->
     writes (trace (connection_made t
                      (state (create_connection
                                (state (_establish_authenticated_session
                                          (Some node) self))))))
     = [serialize (EstablishAuthenticatedSessionRequest node user pass
                     (device_id_override self))]).
Proof.
  intros Hconn. split; [|split].
  - intros user pass node.
    apply (connection_made_with_identity self conn t user pass node Hconn).
  - apply (connection_made_anonymous self conn t Hconn).
  - intros user pass node Huser Hpass.
    destruct (reconnection_state self conn node Hconn)
      as (Hconn' & Huser' & Hpass' & Hnode' & Hdevice').
    rewrite Huser in Huser'. rewrite Hpass in Hpass'.
    destruct (connection_made_with_identity _ _ t user pass node
                Hconn' Huser' Hpass' Hnode') as [Htrace _].
    rewrite Htrace, Hdevice'. reflexivity.
Qed.

End Handshake.

Lemma handshake_on_transport_established_witness :
  trace (connection_made (collaborators := example_collaborators) transport_object
           client_with_node)
  = [Log INFO "[!] Connected.";
     Log INFO "[+] Establishing authenticated connection using kik node '{}'...";
     Log DEBUG "[+] Sending raw data: %s";
     TransportWrite (Bytes (b "<k from=node_abc@talk.kik.com signed=1>"))]
  /\ trace (connection_made (collaborators := example_collaborators) transport_object
              client_without_node)
     = [Log INFO "[!] Connected.";
        Log DEBUG "[+] Sending raw data: %s";
        TransportWrite (Bytes anonymous_open)].
Proof.
  destruct (handshake_on_transport_established (collaborators := example_collaborators)
              client_with_node connected_transport transport_object eq_refl)
    as (Hidentity & _ & _).
  destruct (handshake_on_transport_established (collaborators := example_collaborators)
              client_without_node connected_transport transport_object eq_refl)
    as (_ & Hanonymous & _).
  split.
  - exact (proj1 (Hidentity "user" "secret" "user_abc" eq_refl eq_refl eq_refl)).
  - exact (proj1 (Hanonymous (or_intror (or_intror eq_refl)))).
Defined.

(** ** C4: the deferred login *)

#[local] Arguments _send_xmpp_element : simpl never.
#[local] Arguments wait_for_connection : simpl never.

Section DeferredLogin.

Context {collaborators : Collaborators}.

Implicit Types (self : KikClient) (conn : KikConnection) (k : Node).

(** The flag the constructor computes. *)
Lemma init_should_login_on_connection user pass node device android :
  should_login_on_connection (state (__init__ user pass node device android))
  = is_not_None user && is_not_None pass.
Proof. reflexivity. Qed.

Lemma send_xmpp_element_connected self conn message (later : list bool) :
  connection self = Some conn ->
  _send_xmpp_element (true :: later) message self
  = mkRes self (marshalled message) (Returned (message_id message)).
Proof.
  intros Hconn. unfold _send_xmpp_element, bind at 1. simpl wait_for_connection.
  cbn [ret state trace result].
  rewrite (marshal_element _ _ _ Hconn). reflexivity.
Qed.

(** The trace of [login] called with credentials on a connected client. *)
Lemma login_connected self conn user pass captcha (later : list bool) :
  connection self = Some conn ->
  login (true :: later) (Some user) (Some pass) captcha self
  = mkRes (set_password (Some pass) (set_username (Some user) self))
      (Log INFO "[+] Logging in with username '{}' and a given password..."
       :: marshalled (LoginRequest (Some user) (Some pass) captcha
                        (device_id_override self) (android_id_override self)))
      (Returned (message_id
                   (LoginRequest (Some user) (Some pass) captcha
                      (device_id_override self) (android_id_override self)))).
Proof.
  intros Hconn. unfold login. run_method.
  rewrite (send_xmpp_element_connected _ conn) by (destruct self; exact Hconn).
  destruct self; reflexivity.
Qed.

#[local] Arguments login : simpl never.

Lemma k_element_issues_login self conn user pass k :
  connection self = Some conn ->
  username self = Some user -> password self = Some pass ->
  should_login_on_connection self = true ->
  success_without_ts k = true ->
  _handle_received_k_element k self
  = mkRes (set_should_login_on_connection false
             (set_password (Some pass)
                (set_username (Some user) (set_connected true self))))
      (Log INFO "[+] Logging in with username '{}' and a given password..."
       :: marshalled (LoginRequest (Some user) (Some pass) None
                        (device_id_override self) (android_id_override self)))
      (Returned tt).
Proof.
  intros Hconn Huser Hpass Hflag Hack.
  apply andb_true_iff in Hack as [Hok Hts].
  apply bool_decide_eq_true in Hok, Hts.
  unfold _handle_received_k_element, getitem. rewrite Hok, Hts.
  destruct self; simpl in Hconn, Huser, Hpass, Hflag; subst.
  run_method.
  rewrite (bool_decide_eq_true_2 ("1" = "1")) by reflexivity.
  rewrite (bool_decide_eq_false_2 (is_Some None)) by (intros [? ?]; discriminate).
  cbn.
  rewrite (login_connected _ conn) by reflexivity.
  cbn. rewrite app_nil_r. reflexivity.
Qed.

(** Any other acknowledgement, or any acknowledgement once the flag is
    cleared, sends nothing and leaves the login state as it is. *)
Lemma k_element_no_login self k :
  success_without_ts k = false \/ should_login_on_connection self = false ->
  let r := _handle_received_k_element k self in
  sends (trace r) = []
  /\ username (state r) = username self
  /\ password (state r) = password self
  /\ connection (state r) = connection self
  /\ should_login_on_connection (state r) = should_login_on_connection self
  /\ device_id_override (state r) = device_id_override self
  /\ android_id_override (state r) = android_id_override self.
Proof.
  intros Hno. unfold success_without_ts in Hno.
  unfold _handle_received_k_element, getitem.
  destruct (node_attrs k !! "ok") as [ok|] eqn:Hok;
    [|cbn; repeat split; reflexivity].
  destruct (node_attrs k !! "ts") as [ts|] eqn:Hts.
  - rewrite (bool_decide_eq_true_2 (is_Some (Some ts))) by (eexists; reflexivity).
    run_method.
    destruct (bool_decide (ok = "1")); destruct self; cbn; repeat split; reflexivity.
  - rewrite (bool_decide_eq_false_2 (is_Some None)) by (intros [? ?]; discriminate).
    run_method.
    destruct (decide (ok = "1")) as [->|Hne].
    + rewrite (bool_decide_eq_true_2 ("1" = "1")) by reflexivity.
      destruct Hno as [Hno|Hno]; [discriminate Hno|].
      destruct self; simpl in Hno; subst. cbn. repeat split; reflexivity.
    + rewrite (bool_decide_eq_false_2 (ok = "1")) by exact Hne.
      destruct self; cbn; repeat split; reflexivity.
Qed.

Lemma handle_k_elements_no_login (ks : list Node) : forall self,
  Forall (fun k => success_without_ts k = false) ks
  \/ should_login_on_connection self = false ->
  map (fun r => sends (fst r)) (snd (handle_k_elements ks self))
  = map (fun _ => []) ks
  /\ should_login_on_connection (fst (handle_k_elements ks self))
     = should_login_on_connection self.
Proof.
  induction ks as [|k ks IH]; intros self Hno; [split; reflexivity|].
  destruct (k_element_no_login self k) as (Hsends & _ & _ & _ & Hflag & _).
  { destruct Hno as [Hall|Hflag]; [left|right; exact Hflag].
    apply Forall_cons in Hall as [Hk _]. exact Hk. }
  cbn zeta in Hsends, Hflag.
  destruct (IH (state (_handle_received_k_element k self))) as [IHsends IHflag].
  { destruct Hno as [Hall|Hoff]; [left|right; congruence].
    apply Forall_cons in Hall as [_ Hks]. exact Hks. }
  simpl.
  destruct (handle_k_elements ks (state (_handle_received_k_element k self)))
    as [final results].
  simpl in *. rewrite Hsends, IHsends, IHflag, Hflag. split; reflexivity.
Qed.

Lemma handle_k_elements_login (earlier : list Node) :
  forall self conn user pass k later,
  connection self = Some conn ->
  username self = Some user -> password self = Some pass ->
  should_login_on_connection self = true ->
  Forall (fun k' => success_without_ts k' = false) earlier ->
  success_without_ts k = true ->
  map (fun r => sends (fst r))
    (snd (handle_k_elements (earlier ++ k :: later) self))
  = map (fun _ => []) earlier
    ++ [payloads (LoginRequest (Some user) (Some pass) None
                    (device_id_override self) (android_id_override self))]
    ++ map (fun _ => []) later
  /\ should_login_on_connection
       (fst (handle_k_elements (earlier ++ k :: later) self)) = false.
Proof.
  induction earlier as [|k' earlier IH];
    intros self conn user pass k later Hconn Huser Hpass Hflag Hearlier Hack.
  - simpl app. simpl handle_k_elements.
    rewrite (k_element_issues_login self conn user pass k
               Hconn Huser Hpass Hflag Hack).
    cbn [state trace result].
    match goal with
    | |- context [handle_k_elements later ?s] =>
        destruct (handle_k_elements_no_login later s) as [Hsends Hoff];
          [right; destruct self; reflexivity|];
          destruct (handle_k_elements later s) as [final results]
    end.
    simpl in *. rewrite Hsends, Hoff, sends_marshalled.
    split; [reflexivity|destruct self; reflexivity].
  - apply Forall_cons in Hearlier as [Hk' Hearlier].
    destruct (k_element_no_login self k' (or_introl Hk'))
      as (Hsends & Huser' & Hpass' & Hconn' & Hflag' & Hdevice' & Handroid').
    cbn zeta in *.
    destruct (IH (state (_handle_received_k_element k' self)) conn user pass
                k later) as [IHsends IHflag]; try congruence.
    simpl app. simpl handle_k_elements.
    destruct (handle_k_elements (earlier ++ k :: later)
                (state (_handle_received_k_element k' self)))
      as [final results].
    simpl in *. rewrite Hsends, IHsends, IHflag, Hdevice', Handroid'.
    split; reflexivity.
Qed.

(** C4, as the code has it. The deferred-login flag is set by the
    constructor exactly when a username and a password are given, whether
    or not a node is given. While the flag is set, the connection
    acknowledgements before the first one that signals success without a
    session timestamp send nothing, that acknowledgement sends the payloads
    of one login request and clears the flag, and the acknowledgements after
    it send nothing. Without such an acknowledgement, or with the flag
    cleared, no login request is sent and the flag keeps its value. *)
Theorem deferred_login_issued_once :
  (forall user pass node device android : option string,
     should_login_on_connection (state (__init__ user pass node device android))
     = is_not_None user && is_not_None pass)
  /\ (forall self conn user pass (earlier : list Node) k (later : list Node),
     connection self = Some conn ->
     username self = Some user -> password self = Some pass ->
     should_login_on_connection self = true ->
     Forall (fun k' => success_without_ts k' = false) earlier ->
     success_without_ts k = true ->
     map (fun r => sends (fst r))
       (snd (handle_k_elements (earlier ++ k :: later) self))
     = map (fun _ => []) earlier
       ++ [payloads (LoginRequest (Some user) (Some pass) None
                       (device_id_override self) (android_id_override self))]
       ++ map (fun _ => []) later
     /\ should_login_on_connection
          (fst (handle_k_elements (earlier ++ k :: later) self)) = false)
  /\ (forall self (ks : list Node),
     Forall (fun k => success_without_ts k = false) ks
     \/ should_login_on_connection self = false ->
     map (fun r => sends (fst r)) (snd (handle_k_elements ks self))
     = map (fun _ => []) ks
     /\ should_login_on_connection (fst (handle_k_elements ks self))
        = should_login_on_connection self).
Proof.
  split; [|split].
  - intros. apply init_should_login_on_connection.
  - intros self conn user pass earlier k later.
    apply handle_k_elements_login.
  - intros self ks. apply handle_k_elements_no_login.
Qed.

End DeferredLogin.

Lemma deferred_login_issued_once_witness :
  map (fun r => sends (fst r))
    (snd (handle_k_elements (collaborators := example_collaborators)
            ([k_failed; k_ok_ts] ++ k_ok :: [k_ok; k_ok_ts])
            client_without_node))
  = [[]; []; [Bytes (b "<iq type=set id=login-1/>")]; []; []]
  /\ should_login_on_connection
       (fst (handle_k_elements (collaborators := example_collaborators)
               ([k_failed; k_ok_ts] ++ k_ok :: [k_ok; k_ok_ts])
               client_without_node)) = false.
Proof.
  apply (proj1 (proj2 (deferred_login_issued_once
                         (collaborators := example_collaborators)))
           client_without_node connected_transport "user" "secret"
           [k_failed; k_ok_ts] k_ok [k_ok; k_ok_ts]);
    try reflexivity.
  repeat constructor.
Defined.

(** C4 as stated fails: a client constructed with username, password and
    node has the flag set, and an acknowledgement that signals success
    without a session timestamp makes it send a login request. *)
Lemma login_issued_although_node_given :
  kik_node client_with_node = Some "user_abc"
  /\ should_login_on_connection client_with_node = true
  /\ success_without_ts k_ok = true
  /\ trace (_handle_received_k_element (collaborators := example_collaborators)
              k_ok client_with_node)
     = [Log INFO "[+] Logging in with username '{}' and a given password...";
        CallSoonThreadsafe (SendRawData (Bytes (b "<iq type=set id=login-1/>")))].
Proof. repeat split; vm_compute; reflexivity. Qed.

(** ** Routing of decoded stanzas: C3 and C7 *)

#[local] Arguments _handle_received_k_element : simpl never.

Section Routing.

Context {collaborators : Collaborators}.

Implicit Types (self : KikClient) (message : Node) (xmlns : string).

Lemma handle_xmlns_registered self xmlns handler message :
  xml_namespace_handlers self !! xmlns = Some handler ->
  _handle_xmlns xmlns message self
  = mkRes self [Handle handler message] (Returned tt).
Proof. intros Hreg. unfold _handle_xmlns. run_method. rewrite Hreg. reflexivity. Qed.

Lemma handle_xmlns_unknown self xmlns message :
  xml_namespace_handlers self !! xmlns = None ->
  _handle_xmlns xmlns message self
  = mkRes self
      [Log WARNING
         "[-] Received unknown xml namespace: '{}', ignoring (to see full data, enable debug logs)"]
      (Returned tt).
Proof. intros Hreg. unfold _handle_xmlns. run_method. rewrite Hreg. reflexivity. Qed.

Lemma handle_as_jabber_client_registered self handler message :
  xml_namespace_handlers self !! "jabber:client" = Some handler ->
  handle_as_jabber_client message self
  = mkRes self [Handle handler message] (Returned tt).
Proof.
  intros Hreg. unfold handle_as_jabber_client. run_method. rewrite Hreg.
  reflexivity.
Qed.

(** The precedence of [_handle_xmpp_message], case by case. *)
Lemma message_dispatch_precedence self message :
  (forall xmlns,
     node_attrs message !! "xmlns" = Some xmlns ->
     _handle_xmpp_message message self = _handle_xmlns xmlns message self)
  /\ (forall group_marker,
     node_attrs message !! "xmlns" = None ->
     node_attrs message !! "type" = Some "receipt" ->
     find "g" message = Some group_marker ->
     _handle_xmpp_message message self
     = mkRes self [Callback (on_group_receipts_received message)] (Returned tt))
  /\ (forall type handler,
     node_attrs message !! "xmlns" = None ->
     node_attrs message !! "type" = Some type ->
     type <> "receipt" \/ find "g" message = None ->
     xml_namespace_handlers self !! "jabber:client" = Some handler ->
     _handle_xmpp_message message self
     = mkRes self [Handle handler message] (Returned tt))
  /\ (node_attrs message !! "xmlns" = None ->
     node_attrs message !! "type" = None ->
     _handle_xmpp_message message self
     = mkRes self [] (Raised (KeyError "type"))).
Proof.
  unfold _handle_xmpp_message, getitem. repeat split.
  - intros xmlns ->. reflexivity.
  - intros group_marker -> -> ->. reflexivity.
  - intros type handler -> -> Hfallback Hreg.
    unfold bind. cbn [ret result state trace app].
    destruct (decide (type = "receipt")) as [->|Hne].
    + destruct Hfallback as [Hne|Hnone]; [congruence|]. rewrite Hnone.
      rewrite (bool_decide_eq_true_2 ("receipt" = "receipt")) by reflexivity.
      rewrite (handle_as_jabber_client_registered _ _ _ Hreg). reflexivity.
    + rewrite (bool_decide_eq_false_2 _ Hne).
      rewrite (handle_as_jabber_client_registered _ _ _ Hreg). reflexivity.
  - intros -> ->. reflexivity.
Qed.

(** What [_on_new_data_received] does with anything but the keep-alive. *)
Lemma on_new_data_received_stanza self data xml_element (others : list Node) :
  data <> b " " ->
  BeautifulSoup data = inr (xml_element :: others) ->
  _on_new_data_received data self = dispatch_by_tag xml_element self.
Proof.
  intros Hdata Hparse. unfold _on_new_data_received.
  rewrite (bool_decide_eq_false_2 _ Hdata), Hparse. reflexivity.
Qed.

Lemma dispatch_by_tag_unknown self (xml_element : Node) :
  node_name xml_element <> Some "k" ->
  node_name xml_element <> Some "iq" ->
  node_name xml_element <> Some "message" ->
  node_name xml_element <> Some "stc" ->
  dispatch_by_tag xml_element self = mkRes self [] (Returned tt).
Proof.
  intros Hk Hiq Hmessage Hstc. unfold dispatch_by_tag.
  rewrite (bool_decide_eq_false_2 _ Hk), (bool_decide_eq_false_2 _ Hiq),
    (bool_decide_eq_false_2 _ Hmessage), (bool_decide_eq_false_2 _ Hstc).
  reflexivity.
Qed.

Lemma dispatch_by_tag_iq_unknown self (iq_element query : Node) xmlns :
  node_name iq_element = Some "iq" ->
  find "query" iq_element = Some query ->
  node_attrs query !! "xmlns:" = Some xmlns ->
  xml_namespace_handlers self !! xmlns = None ->
  dispatch_by_tag iq_element self
  = mkRes self
      [Log WARNING
         "[-] Received unknown xml namespace: '{}', ignoring (to see full data, enable debug logs)"]
      (Returned tt).
Proof.
  intros Hname Hquery Hxmlns Hreg.
  unfold dispatch_by_tag, _handle_received_iq_element, getitem.
  rewrite Hname, Hquery, Hxmlns.
  rewrite (bool_decide_eq_false_2 (Some "iq" = Some "k")) by discriminate.
  rewrite (bool_decide_eq_true_2 (Some "iq" = Some "iq")) by reflexivity.
  unfold bind. cbn [ret result state trace app].
  rewrite (handle_xmlns_unknown _ _ _ Hreg). reflexivity.
Qed.

Lemma dispatch_by_tag_message_unknown self message xmlns :
  node_name message = Some "message" ->
  node_attrs message !! "xmlns" = Some xmlns ->
  xml_namespace_handlers self !! xmlns = None ->
  dispatch_by_tag message self
  = mkRes self
      [Log WARNING
         "[-] Received unknown xml namespace: '{}', ignoring (to see full data, enable debug logs)"]
      (Returned tt).
Proof.
  intros Hname Hxmlns Hreg.
  unfold dispatch_by_tag, _handle_xmpp_message.
  rewrite Hname, Hxmlns.
  rewrite (bool_decide_eq_false_2 (Some "message" = Some "k")) by discriminate.
  rewrite (bool_decide_eq_false_2 (Some "message" = Some "iq")) by discriminate.
  rewrite (bool_decide_eq_true_2 (Some "message" = Some "message")) by reflexivity.
  unfold bind. cbn [ret result state trace app].
  rewrite (handle_xmlns_unknown _ _ _ Hreg). reflexivity.
Qed.

(** C7, as the code has it. A namespace that is absent from the registry,
    on an [iq] through its query node or on a [message] through its
    [xmlns] attribute, is logged with one warning; no handler and no
    callback is invoked, nothing is raised and the call returns. A top-level
    tag other than [k], [iq], [message] and [stc] is dropped without any
    effect: no handler, no callback, no exception, and no log record
    either. *)
Theorem unrouted_stanza_is_dropped self :
  (forall xmlns message,
     xml_namespace_handlers self !! xmlns = None ->
     _handle_xmlns xmlns message self
     = mkRes self
         [Log WARNING
            "[-] Received unknown xml namespace: '{}', ignoring (to see full data, enable debug logs)"]
         (Returned tt))
  /\ (forall (iq_element query : Node) xmlns,
     node_name iq_element = Some "iq" ->
     find "query" iq_element = Some query ->
     node_attrs query !! "xmlns:" = Some xmlns ->
     xml_namespace_handlers self !! xmlns = None ->
     dispatch_by_tag iq_element self
     = mkRes self
         [Log WARNING
            "[-] Received unknown xml namespace: '{}', ignoring (to see full data, enable debug logs)"]
         (Returned tt))
  /\ (forall message xmlns,
     node_name message = Some "message" ->
     node_attrs message !! "xmlns" = Some xmlns ->
     xml_namespace_handlers self !! xmlns = None ->
     dispatch_by_tag message self
     = mkRes self
         [Log WARNING
            "[-] Received unknown xml namespace: '{}', ignoring (to see full data, enable debug logs)"]
         (Returned tt))
  /\ (forall xml_element : Node,
     node_name xml_element <> Some "k" ->
     node_name xml_element <> Some "iq" ->
     node_name xml_element <> Some "message" ->
     node_name xml_element <> Some "stc" ->
     dispatch_by_tag xml_element self = mkRes self [] (Returned tt))
  /\ (forall (data : bytes) (xml_element : Node) (others : list Node),
     data <> b " " ->
     BeautifulSoup data = inr (xml_element :: others) ->
     _on_new_data_received data self = dispatch_by_tag xml_element self).
Proof.
  split; [|split; [|split; [|split]]].
  - intros xmlns message. apply handle_xmlns_unknown.
  - intros iq_element query xmlns. apply dispatch_by_tag_iq_unknown.
  - intros message xmlns. apply dispatch_by_tag_message_unknown.
  - intros xml_element. apply dispatch_by_tag_unknown.
  - intros data xml_element others. apply on_new_data_received_stanza.
Qed.

(** C3 at a message stanza that has neither an [xmlns] nor a [type]
    attribute: the read of [xmpp_message['type']] raises [KeyError], and no
    handler is invoked. *)
Theorem message_without_type_raises self :
  node_attrs message_without_type !! "xmlns" = None
  /\ node_attrs message_without_type !! "type" = None
  /\ _handle_xmpp_message message_without_type self
     = mkRes self [] (Raised (KeyError "type"))
  /\ dispatch_by_tag message_without_type self
     = mkRes self [] (Raised (KeyError "type")).
Proof. repeat split; reflexivity. Qed.

End Routing.

(** The same stanza as it arrives from the loop: the exception leaves
    [_on_new_data_received]. *)
Example message_without_type_received :
  _on_new_data_received (collaborators := example_collaborators)
    (b "<message from=a@talk.kik.com/>") client_without_node
  = mkRes client_without_node [] (Raised (KeyError "type")).
Proof. reflexivity. Qed.

Lemma unrouted_stanza_is_dropped_witness :
  _handle_xmlns "kik:iq:unheard-of" k_ok client_without_node
  = mkRes client_without_node
      [Log WARNING
         "[-] Received unknown xml namespace: '{}', ignoring (to see full data, enable debug logs)"]
      (Returned tt)
  /\ dispatch_by_tag (collaborators := example_collaborators)
       (Tag "foo" ∅ []) client_without_node
     = mkRes client_without_node [] (Returned tt).
Proof.
  destruct (unrouted_stanza_is_dropped (collaborators := example_collaborators)
              client_without_node) as (Hxmlns & _ & _ & Htag & _).
  split.
  - apply Hxmlns. reflexivity.
  - apply Htag; discriminate.
Defined.

(** C7 as stated fails on the log record: the stanza [<foo/>] reaches
    [_on_new_data_received], is parsed to a tag named [foo], and the call
    returns with an empty trace: nothing was logged or recorded. *)
Lemma unknown_tag_dropped_without_log :
  BeautifulSoup (Collaborators := example_collaborators) (b "<foo/>")
  = inr [Tag "foo" ∅ []]
  /\ _on_new_data_received (collaborators := example_collaborators)
       (b "<foo/>") client_without_node
     = mkRes client_without_node [] (Returned tt).
Proof. split; reflexivity. Qed.

(** ** The keep-alive: C8 and C10 *)

#[local] Arguments data_received : simpl never.

Section KeepAlive.

Context {collaborators : Collaborators}.

Implicit Types (self : KikClient) (conn : KikConnection) (t : Transport).

(** A single space is shorter than every closing tag. *)
Lemma space_never_ends_with_tag (tag : bytes) : ends_with_tag tag (b " ") = false.
Proof.
  apply endswith_shorter. change (b "</" ++ tag ++ b ">")
    with (FramingSpec.closing_tag tag).
  rewrite closing_tag_length. simpl. lia.
Qed.

Lemma on_new_data_received_space self conn :
  connection self = Some conn ->
  _on_new_data_received (b " ") self
  = mkRes self [CallSoonThreadsafe (SendRawData (Bytes (b " ")))] (Returned tt).
Proof.
  intros Hconn. unfold _on_new_data_received.
  rewrite (bool_decide_eq_true_2 (b " " = b " ")) by reflexivity.
  apply (schedule_send_connected _ conn). exact Hconn.
Qed.

Lemma run_send_raw_data self conn t data :
  connection self = Some conn -> transport conn = Some t ->
  run_call (SendRawData data) self
  = mkRes self [Log DEBUG "[+] Sending raw data: %s"; TransportWrite data]
      (Returned tt).
Proof.
  intros Hconn Ht. unfold run_call, send_raw_data. run_method.
  rewrite Hconn. cbn. rewrite Ht. cbn.
  rewrite (set_connection_same _ _ Hconn). reflexivity.
Qed.

Lemma run_loop_turn self (turns : nat) call (others : list LoopCall) s' tr :
  run_call call self = mkRes s' tr (Returned tt) ->
  run_loop (S turns) (call :: others) self
  = mkRes (state (run_loop turns (others ++ scheduled tr) s'))
      (tr ++ trace (run_loop turns (others ++ scheduled tr) s'))
      (result (run_loop turns (others ++ scheduled tr) s')).
Proof. intros Hcall. cbn [run_loop]. rewrite Hcall. reflexivity. Qed.

Lemma run_loop_done self (turns : nat) :
  run_loop turns [] self = mkRes self [] (Returned []).
Proof. destruct turns; reflexivity. Qed.

(** The loop, given the keep-alive and at least two turns. *)
Lemma run_loop_keep_alive self conn t (turns : nat) :
  connection self = Some conn -> transport conn = Some t ->
  run_loop (S (S turns)) [OnNewDataReceived (b " ")] self
  = mkRes self
      [CallSoonThreadsafe (SendRawData (Bytes (b " ")));
       Log DEBUG "[+] Sending raw data: %s";
       TransportWrite (Bytes (b " "))]
      (Returned []).
Proof.
  intros Hconn Ht.
  rewrite (run_loop_turn self _ (OnNewDataReceived (b " ")) _ _ _
             (on_new_data_received_space _ _ Hconn)).
  cbn [scheduled app].
  rewrite (run_loop_turn _ _ _ _ _ _ (run_send_raw_data _ _ _ _ Hconn Ht)).
  cbn [scheduled app]. rewrite run_loop_done. reflexivity.
Qed.

(** C8. When the payload is exactly one space byte, the only thing
    [_on_new_data_received] does is to schedule the write of one space byte;
    the loop then writes that byte, once. No handler and no callback is
    invoked, the payload is not parsed, and nothing else is written. *)
Theorem keep_alive_is_echoed self conn t (turns : nat) :
  connection self = Some conn -> transport conn = Some t ->
  _on_new_data_received (b " ") self
  = mkRes self [CallSoonThreadsafe (SendRawData (Bytes (b " ")))] (Returned tt)
  /\ run_loop (S (S turns)) [OnNewDataReceived (b " ")] self
     = mkRes self
         [CallSoonThreadsafe (SendRawData (Bytes (b " ")));
          Log DEBUG "[+] Sending raw data: %s";
          TransportWrite (Bytes (b " "))]
         (Returned [])
  /\ writes (trace (run_loop (S (S turns)) [OnNewDataReceived (b " ")] self))
     = [Bytes (b " ")]
  /\ invocations (trace (run_loop (S (S turns)) [OnNewDataReceived (b " ")] self))
     = [].
Proof.
  intros Hconn Ht. rewrite (run_loop_keep_alive _ _ _ _ Hconn Ht).
  repeat split. apply (on_new_data_received_space _ _ Hconn).
Qed.

Lemma receive_space_into_partial_buffer self conn partial tag (turns : nat) :
  connection self = Some conn ->
  partial_data conn = Some partial -> partial_data_start_tag conn = Some tag ->
  receive turns (b " ") self
  = mkRes (set_connection
             (Some (mkConnection (Some (partial ++ b " ")) (Some tag)
                      (transport conn))) self)
      [Log DEBUG "[+] Received raw data: %s";
       Log DEBUG "[!] Waiting for another packet, size={}"]
      (Returned []).
Proof.
  intros Hconn Hpartial Htag. unfold receive, on_connection. rewrite Hconn.
  rewrite (data_received_incomplete conn partial tag (b " ") Hpartial Htag
             (space_never_ends_with_tag tag)).
  cbn [state trace result scheduled]. rewrite run_loop_done. reflexivity.
Qed.

Lemma receive_space_without_partial_buffer self conn t (turns : nat) :
  connection self = Some conn ->
  partial_data conn = None -> transport conn = Some t ->
  receive (S (S turns)) (b " ") self
  = mkRes self
      [Log DEBUG "[+] Received raw data: %s";
       CallSoonThreadsafe (OnNewDataReceived (b " "));
       CallSoonThreadsafe (SendRawData (Bytes (b " ")));
       Log DEBUG "[+] Sending raw data: %s";
       TransportWrite (Bytes (b " "))]
      (Returned []).
Proof.
  intros Hconn Hnone Ht. unfold receive, on_connection. rewrite Hconn.
  rewrite (data_received_short conn (b " ") Hnone) by (vm_compute; reflexivity).
  cbn [state trace result scheduled]. rewrite (set_connection_same _ _ Hconn).
  rewrite (run_loop_keep_alive _ _ _ _ Hconn Ht). reflexivity.
Qed.

(** C10. The keep-alive test comes after framing. A read of one space
    byte that arrives while the partial buffer is open is appended to the
    buffer (one space never ends with a closing tag): nothing is handed on,
    nothing is written back. The same read with no partial buffer open is
    handed on and echoed by one write of one space byte. *)
Theorem keep_alive_only_without_partial_buffer self conn (turns : nat) :
  connection self = Some conn ->
  (forall tag : bytes, ends_with_tag tag (b " ") = false)
  /\ (forall partial tag : bytes,
     partial_data conn = Some partial -> partial_data_start_tag conn = Some tag ->
     receive turns (b " ") self
     = mkRes (set_connection
                (Some (mkConnection (Some (partial ++ b " ")) (Some tag)
                         (transport conn))) self)
         [Log DEBUG "[+] Received raw data: %s";
          Log DEBUG "[!] Waiting for another packet, size={}"]
         (Returned []))
  /\ (forall t,
     partial_data conn = None -> transport conn = Some t ->
     receive (S (S turns)) (b " ") self
     = mkRes self
         [Log DEBUG "[+] Received raw data: %s";
          CallSoonThreadsafe (OnNewDataReceived (b " "));
          CallSoonThreadsafe (SendRawData (Bytes (b " ")));
          Log DEBUG "[+] Sending raw data: %s";
          TransportWrite (Bytes (b " "))]
         (Returned [])).
Proof.
  intros Hconn. split; [|split].
  - apply space_never_ends_with_tag.
  - intros partial tag. apply receive_space_into_partial_buffer. exact Hconn.
  - intros t. apply receive_space_without_partial_buffer. exact Hconn.
Qed.

End KeepAlive.

Lemma keep_alive_is_echoed_witness :
  writes (trace (run_loop (collaborators := example_collaborators) 2
                   [OnNewDataReceived (b " ")] client_without_node))
  = [Bytes (b " ")]
  /\ invocations (trace (run_loop (collaborators := example_collaborators) 2
                           [OnNewDataReceived (b " ")] client_without_node))
     = [].
Proof.
  exact (proj2 (proj2 (keep_alive_is_echoed
                         (collaborators := example_collaborators)
                         client_without_node connected_transport
                         transport_object 0 eq_refl eq_refl))).
Defined.

Lemma keep_alive_only_without_partial_buffer_witness :
  writes (trace (receive (collaborators := example_collaborators) 2 (b " ")
                   client_buffering))
  = []
  /\ writes (trace (receive (collaborators := example_collaborators) 2 (b " ")
                      client_without_node))
     = [Bytes (b " ")].
Proof.
  destruct (keep_alive_only_without_partial_buffer
              (collaborators := example_collaborators)
              client_buffering buffering_connection 2 eq_refl)
    as (_ & Hbuffer & _).
  destruct (keep_alive_only_without_partial_buffer
              (collaborators := example_collaborators)
              client_without_node connected_transport 0 eq_refl)
    as (_ & _ & Hecho).
  split.
  - rewrite (Hbuffer (b "<a>gh") (b "a") eq_refl eq_refl). reflexivity.
  - rewrite (Hecho transport_object eq_refl eq_refl). reflexivity.
Defined.

(** ** C9: the kind of a peer address *)

Section AddressKind.

Context {collaborators : Collaborators}.

Implicit Types (jid needle : string) (self : KikClient).

Lemma prefix_append needle (rest : string) :
  String.prefix needle (needle +:+ rest) = true.
Proof.
  induction needle as [|c needle IH]; simpl.
  - destruct rest; reflexivity.
  - destruct (Ascii.ascii_dec c c) as [_|Hne]; [exact IH|congruence].
Qed.

Lemma prefix_inv needle : forall jid,
  String.prefix needle jid = true -> exists rest, jid = needle +:+ rest.
Proof.
  induction needle as [|c needle IH]; intros jid Hprefix.
  - exists jid. reflexivity.
  - destruct jid as [|c' jid]; simpl in Hprefix; [discriminate|].
    destruct (Ascii.ascii_dec c c') as [->|_]; [|discriminate].
    destruct (IH jid Hprefix) as [rest ->]. exists rest. reflexivity.
Qed.

(** [str_contains] decides the occurrence of [needle] somewhere in [jid]. *)
Lemma str_contains_occurs needle jid :
  str_contains needle jid = true
  <-> exists before after, jid = before +:+ needle +:+ after.
Proof.
  split.
  - induction jid as [|c jid IH]; cbn [str_contains]; intros Hcontains.
    + apply orb_true_iff in Hcontains as [Hprefix|?]; [|discriminate].
      destruct (prefix_inv needle "" Hprefix) as [rest Hrest].
      exists "", rest. exact Hrest.
    + apply orb_true_iff in Hcontains as [Hprefix|Hlater].
      * destruct (prefix_inv needle (String c jid) Hprefix) as [rest Hrest].
        exists "", rest. exact Hrest.
      * destruct (IH Hlater) as (before & after & ->).
        exists (String c before), after. reflexivity.
  - intros (before & after & ->).
    induction before as [|c before IH].
    + change ("" +:+ needle +:+ after) with (needle +:+ after).
      destruct (needle +:+ after) eqn:Happ; cbn [str_contains];
        rewrite <- Happ, prefix_append; reflexivity.
    + change (String c before +:+ needle +:+ after)
        with (String c (before +:+ needle +:+ after)).
      cbn [str_contains]. rewrite IH. apply orb_true_r.
Qed.

Lemma str_endswith_suffix jid (suffix : string) :
  str_endswith jid suffix = true <-> exists before, jid = before +:+ suffix.
Proof.
  split.
  - induction jid as [|c jid IH]; cbn [str_endswith]; intros Hends.
    + apply orb_true_iff in Hends as [Heq|?]; [|discriminate].
      apply String.eqb_eq in Heq. subst. exists "". reflexivity.
    + apply orb_true_iff in Hends as [Heq|Hlater].
      * apply String.eqb_eq in Heq. subst. exists "". reflexivity.
      * destruct (IH Hlater) as [before ->]. exists (String c before). reflexivity.
  - intros [before ->]. induction before as [|c before IH].
    + change ("" +:+ suffix) with suffix.
      destruct suffix; cbn [str_endswith]; rewrite String.eqb_refl; reflexivity.
    + change (String c before +:+ suffix) with (String c (before +:+ suffix)).
      cbn [str_endswith]. rewrite IH. apply orb_true_r.
Qed.

(** An address that ends with a domain contains it. *)
Lemma str_endswith_contains jid (suffix : string) :
  str_endswith jid suffix = true -> str_contains suffix jid = true.
Proof.
  assert (Hrefl : String.prefix suffix suffix = true).
  { induction suffix as [|c suffix IH]; simpl; [reflexivity|].
    destruct (Ascii.ascii_dec c c); [exact IH|congruence]. }
  induction jid as [|c jid IH]; cbn [str_endswith str_contains]; intros Hends;
    apply orb_true_iff in Hends as [Heq|Hlater]; try discriminate.
  - apply String.eqb_eq in Heq. subst. rewrite Hrefl. reflexivity.
  - apply String.eqb_eq in Heq. subst. rewrite Hrefl. reflexivity.
  - rewrite (IH Hlater). apply orb_true_r.
Qed.

(** C9, as the code has it. The kind of an address is decided by
    occurrence, not by suffix: an address in which [@talk.kik.com] occurs
    is not a group; otherwise an address in which [@groups.kik.com] occurs
    is a group; an address in which neither occurs makes [is_group_jid]
    raise [KikApiException], and [send_chat_message] raises it before it
    logs, polls, sleeps or schedules anything. So an address that ends
    with [@talk.kik.com] is not a group, and one that ends with
    [@groups.kik.com] and has no [@talk.kik.com] in it is a group. *)
Theorem is_group_jid_by_occurrence self jid :
  (str_contains "@talk.kik.com" jid = true ->
     is_group_jid jid self = mkRes self [] (Returned false))
  /\ (str_contains "@talk.kik.com" jid = false ->
     str_contains "@groups.kik.com" jid = true ->
     is_group_jid jid self = mkRes self [] (Returned true))
  /\ (str_contains "@talk.kik.com" jid = false ->
     str_contains "@groups.kik.com" jid = false ->
     is_group_jid jid self
     = mkRes self [] (Raised (KikApiException "Not a valid jid"))
     /\ forall (connected_reads : list bool) (message : string)
          (bot_mention_jid : option string),
        send_chat_message connected_reads jid message bot_mention_jid self
        = mkRes self [] (Raised (KikApiException "Not a valid jid")))
  /\ (str_endswith jid "@talk.kik.com" = true ->
     is_group_jid jid self = mkRes self [] (Returned false))
  /\ (str_endswith jid "@groups.kik.com" = true ->
     str_contains "@talk.kik.com" jid = false ->
     is_group_jid jid self = mkRes self [] (Returned true)).
Proof.
  unfold send_chat_message, is_group_jid.
  split; [|split; [|split; [|split]]].
  - intros ->. reflexivity.
  - intros -> ->. reflexivity.
  - intros Htalk Hgroups. rewrite Htalk, Hgroups.
    split; [reflexivity|]. intros connected_reads message bot_mention_jid.
    reflexivity.
  - intros Hends. rewrite (str_endswith_contains _ _ Hends). reflexivity.
  - intros Hends ->. rewrite (str_endswith_contains _ _ Hends). reflexivity.
Qed.

End AddressKind.

Lemma is_group_jid_by_occurrence_witness :
  is_group_jid "friend_xyz@talk.kik.com" client_without_node
  = mkRes client_without_node [] (Returned false)
  /\ is_group_jid "1100221067977_g@groups.kik.com" client_without_node
     = mkRes client_without_node [] (Returned true)
  /\ send_chat_message (collaborators := example_collaborators)
       [false; true] "friend_xyz" "hello" None client_without_node
     = mkRes client_without_node [] (Raised (KikApiException "Not a valid jid")).
Proof.
  split; [|split].
  - apply (is_group_jid_by_occurrence (collaborators := example_collaborators)
             client_without_node "friend_xyz@talk.kik.com").
    reflexivity.
  - apply (is_group_jid_by_occurrence (collaborators := example_collaborators)
             client_without_node "1100221067977_g@groups.kik.com");
      reflexivity.
  - apply (is_group_jid_by_occurrence (collaborators := example_collaborators)
             client_without_node "friend_xyz"); reflexivity.
Defined.

(** C9 as stated fails. The address [user_abc@talk.kik.com/CAN] ends with
    neither domain, yet no exception is raised: it is classified as not a
    group. The address [x@talk.kik.com@groups.kik.com] ends with the group
    domain, yet it is classified as not a group. *)
Lemma address_kind_is_not_by_suffix :
  str_endswith "user_abc@talk.kik.com/CAN" "@talk.kik.com" = false
  /\ str_endswith "user_abc@talk.kik.com/CAN" "@groups.kik.com" = false
  /\ is_group_jid "user_abc@talk.kik.com/CAN" client_without_node
     = mkRes client_without_node [] (Returned false)
  /\ str_endswith "x@talk.kik.com@groups.kik.com" "@groups.kik.com" = true
  /\ is_group_jid "x@talk.kik.com@groups.kik.com" client_without_node
     = mkRes client_without_node [] (Returned false).
Proof. repeat split; reflexivity. Qed.

(** * Properties beyond the specification *)

(** ** The framing layer, read after read *)

Section FramingInvariants.

Implicit Types (self : KikConnection) (data chunk : bytes) (chunks : list bytes).

Lemma buffer_fields_paired_cases self :
  buffer_fields_paired self ->
  (partial_data self = None /\ partial_data_start_tag self = None)
  \/ (exists partial tag,
        partial_data self = Some partial /\ partial_data_start_tag self = Some tag).
Proof.
  unfold buffer_fields_paired.
  destruct (partial_data self) as [partial|], (partial_data_start_tag self) as [tag|];
    intros Hpaired; try contradiction; [right; eauto|left; auto].
Qed.

(** One read, from a state whose buffer attributes are paired: the call
    returns, the attributes stay paired, the transport is not touched, and
    the bytes handed on followed by the bytes held back are the bytes held
    back before followed by the read. *)
Lemma data_received_step self data :
  buffer_fields_paired self ->
  exists after tr,
    data_received data self = mkRes after tr (Returned tt)
    /\ buffer_fields_paired after
    /\ transport after = transport self
    /\ concat (dispatched tr) ++ buffered after = buffered self ++ data
    /\ (buffer_is_long self -> buffer_is_long after)
    /\ (buffer_is_long self ->
        Forall (fun stanza => (stanza = data /\ len stanza < 16384)
                              \/ 16387 <= len stanza) (dispatched tr)).
Proof.
  intros Hpaired.
  destruct (buffer_fields_paired_cases self Hpaired)
    as [[Hnone Htag]|(partial & tag & Hpartial & Htag)].
  - destruct (Z.lt_ge_cases (len data) 16384) as [Hshort|Hlong].
    + eexists _, _. split; [apply (data_received_short _ _ Hnone Hshort)|].
      unfold buffered. rewrite Hnone. cbn [dispatched concat default].
      split; [exact Hpaired|]. split; [reflexivity|].
      split; [rewrite !app_nil_r; reflexivity|]. split; [auto|].
      intros _. constructor; [left; auto|constructor].
    + eexists _, _. split; [apply (data_received_long _ _ Hnone Hlong)|].
      unfold buffered, buffer_fields_paired, buffer_is_long. rewrite Hnone.
      cbn [dispatched concat default partial_data partial_data_start_tag transport].
      split; [exact I|]. split; [reflexivity|]. split; [reflexivity|].
      split; [|intros _; constructor].
      intros _ partial Hsome. injection Hsome as <-. exact Hlong.
  - destruct (ends_with_tag tag data) eqn:Hends.
    + eexists _, _.
      split; [apply (data_received_complete _ _ _ _ Hpartial Htag Hends)|].
      unfold buffered, buffer_fields_paired, buffer_is_long. rewrite Hpartial.
      cbn [dispatched concat default partial_data partial_data_start_tag transport].
      split; [exact I|]. split; [reflexivity|].
      split; [rewrite !app_nil_r; reflexivity|].
      split; [intros _ other Hsome; discriminate Hsome|].
      intros Hlong. constructor; [|constructor]. right.
      specialize (Hlong partial eq_refl).
      apply ends_with_tag_closing_tag, suffix_length in Hends.
      rewrite closing_tag_length in Hends.
      unfold len in *. rewrite length_app. lia.
    + eexists _, _.
      split; [apply (data_received_incomplete _ _ _ _ Hpartial Htag Hends)|].
      unfold buffered, buffer_fields_paired, buffer_is_long. rewrite Hpartial.
      cbn [dispatched concat default partial_data partial_data_start_tag transport].
      split; [exact I|]. split; [reflexivity|]. split; [reflexivity|].
      split; [|intros _; constructor].
      intros Hlong extended Hsome. injection Hsome as <-.
      specialize (Hlong partial eq_refl).
      unfold len in *. rewrite length_app. lia.
Qed.

(** Any number of reads. *)
Lemma feed_steps chunks : forall self,
  buffer_fields_paired self ->
  exists after tr,
    feed chunks self = mkRes after tr (Returned tt)
    /\ buffer_fields_paired after
    /\ transport after = transport self
    /\ concat (dispatched tr) ++ buffered after = buffered self ++ concat chunks
    /\ (buffer_is_long self -> buffer_is_long after)
    /\ (buffer_is_long self ->
        Forall (fun stanza => (stanza ∈ chunks /\ len stanza < 16384)
                              \/ 16387 <= len stanza) (dispatched tr)).
Proof.
  induction chunks as [|chunk chunks IH]; intros self Hpaired.
  - exists self, []. unfold feed. cbn [for_each]. unfold ret.
    cbn [dispatched concat]. rewrite app_nil_r.
    repeat (split; [auto|]). intros _. constructor.
  - destruct (data_received_step self chunk Hpaired)
      as (mid & tr1 & Hstep & Hpaired1 & Htransport1 & Hbytes1 & Hlong1 & Hkinds1).
    destruct (IH mid Hpaired1)
      as (after & tr2 & Hfeed & Hpaired2 & Htransport2 & Hbytes2 & Hlong2 & Hkinds2).
    exists after, (tr1 ++ tr2). unfold feed in *.
    rewrite (for_each_cons_returned data_received chunk chunks self mid tr1 Hstep).
    rewrite Hfeed. cbn [state trace result].
    split; [reflexivity|]. split; [exact Hpaired2|].
    split; [congruence|]. split; [|split].
    + rewrite dispatched_app, concat_app, <- app_assoc, Hbytes2, app_assoc, Hbytes1.
      cbn [concat]. rewrite <- app_assoc. reflexivity.
    + auto.
    + intros Hlong. rewrite dispatched_app. apply Forall_app. split.
      * eapply Forall_impl; [exact (Hkinds1 Hlong)|].
        intros stanza [[-> Hshort]|Hbig]; [left|right; exact Hbig].
        split; [apply list_elem_of_here|exact Hshort].
      * eapply Forall_impl; [exact (Hkinds2 (Hlong1 Hlong))|].
        intros stanza [[Hin Hshort]|Hbig]; [left|right; exact Hbig].
        split; [apply list_elem_of_further; exact Hin|exact Hshort].
Qed.

(** X1. Whatever reads arrive at a connection whose two buffer attributes
    are paired (both [None], as [__init__] leaves them, or both set),
    [data_received] returns on each of them, never raising, leaves the
    attributes paired, and never touches the transport. *)
Theorem data_received_never_raises chunks self :
  buffer_fields_paired self ->
  result (feed chunks self) = Returned tt
  /\ buffer_fields_paired (state (feed chunks self))
  /\ transport (state (feed chunks self)) = transport self.
Proof.
  intros Hpaired.
  destruct (feed_steps chunks self Hpaired)
    as (after & tr & -> & Hpaired' & Htransport & _).
  auto.
Qed.

Lemma data_received_never_raises_witness :
  result (feed [chat_first_read; b " "; short_read] new_KikConnection) = Returned tt
  /\ buffer_fields_paired
       (state (feed [chat_first_read; b " "; short_read] new_KikConnection))
  /\ transport (state (feed [chat_first_read; b " "; short_read] new_KikConnection))
     = None.
Proof.
  exact (data_received_never_raises [chat_first_read; b " "; short_read]
           new_KikConnection I).
Defined.

(** X2. No byte is lost, repeated or moved: after any reads, the stanzas
    handed on, in order, followed by the bytes still held back are the
    bytes held back before followed by the reads, in order. *)
Theorem framing_conserves_bytes chunks self :
  buffer_fields_paired self ->
  concat (dispatched (trace (feed chunks self)))
  ++ buffered (state (feed chunks self))
  = buffered self ++ concat chunks.
Proof.
  intros Hpaired.
  destruct (feed_steps chunks self Hpaired) as (after & tr & -> & _ & _ & Hbytes & _).
  exact Hbytes.
Qed.

Lemma framing_conserves_bytes_witness :
  concat (dispatched (trace (feed [short_read; chat_first_read; chat_middle_read]
                               new_KikConnection)))
  ++ buffered (state (feed [short_read; chat_first_read; chat_middle_read]
                        new_KikConnection))
  = buffered new_KikConnection
    ++ concat [short_read; chat_first_read; chat_middle_read].
Proof.
  exact (framing_conserves_bytes [short_read; chat_first_read; chat_middle_read]
           new_KikConnection I).
Defined.

(** X3. On a connection that starts with no buffer, or with one of at
    least 16384 bytes, the buffer is at least 16384 bytes long whenever it
    is open, and every stanza handed on is either one of the reads, shorter
    than 16384 bytes, or a reassembly of at least 16387 bytes. *)
Theorem dispatched_stanza_kinds chunks self :
  buffer_fields_paired self -> buffer_is_long self ->
  buffer_is_long (state (feed chunks self))
  /\ Forall (fun stanza => (stanza ∈ chunks /\ len stanza < 16384)
                           \/ 16387 <= len stanza)
       (dispatched (trace (feed chunks self))).
Proof.
  intros Hpaired Hlong.
  destruct (feed_steps chunks self Hpaired)
    as (after & tr & -> & _ & _ & _ & Hlong' & Hkinds).
  auto.
Qed.

Lemma new_KikConnection_buffer_is_long : buffer_is_long new_KikConnection.
Proof. intros partial Hsome. discriminate Hsome. Qed.

Lemma dispatched_stanza_kinds_witness :
  buffer_is_long
    (state (feed [chat_first_read; chat_middle_read; chat_last_read; short_read]
              new_KikConnection))
  /\ Forall (fun stanza =>
              (stanza ∈ [chat_first_read; chat_middle_read; chat_last_read; short_read]
               /\ len stanza < 16384)
              \/ 16387 <= len stanza)
       (dispatched
          (trace (feed [chat_first_read; chat_middle_read; chat_last_read; short_read]
                    new_KikConnection))).
Proof.
  exact (dispatched_stanza_kinds
           [chat_first_read; chat_middle_read; chat_last_read; short_read]
           new_KikConnection I new_KikConnection_buffer_is_long).
Defined.

(** X4. With no buffer open, reads that are each shorter than 16384 bytes
    are handed on one by one, unchanged and in order, never joined, and
    the connection is left as it was. *)
Theorem short_reads_stay_apart chunks : forall self,
  partial_data self = None ->
  Forall (fun chunk => len chunk < 16384) chunks ->
  dispatched (trace (feed chunks self)) = chunks
  /\ state (feed chunks self) = self
  /\ result (feed chunks self) = Returned tt.
Proof.
  induction chunks as [|chunk chunks IH]; intros self Hnone Hshort.
  - repeat split; reflexivity.
  - apply Forall_cons in Hshort as [Hchunk Hshort].
    destruct (IH self Hnone Hshort) as (Hd & Hs & Hr).
    unfold feed in *.
    rewrite (for_each_cons_returned data_received chunk chunks self self _
               (data_received_short self chunk Hnone Hchunk)).
    cbn [state trace result app dispatched]. rewrite Hd, Hs, Hr. auto.
Qed.

Lemma short_reads_stay_apart_witness :
  dispatched (trace (feed [short_read; b " "; short_read] new_KikConnection))
  = [short_read; b " "; short_read]
  /\ state (feed [short_read; b " "; short_read] new_KikConnection)
     = new_KikConnection
  /\ result (feed [short_read; b " "; short_read] new_KikConnection) = Returned tt.
Proof.
  apply (short_reads_stay_apart [short_read; b " "; short_read]
           new_KikConnection eq_refl).
  repeat constructor.
Defined.

End FramingInvariants.

(** ** The opening tag name *)

Section OpeningTag.

Implicit Types (data name rest : bytes) (c sep : byte).

Lemma cut_at_absent c data : c ∉ data -> FramingSpec.cut_at c data = data.
Proof.
  induction data as [|x data IH]; intros Habsent; [reflexivity|].
  apply not_elem_of_cons in Habsent as [Hne Habsent]. cbn [FramingSpec.cut_at].
  rewrite bool_decide_eq_false_2 by congruence. rewrite IH by exact Habsent.
  reflexivity.
Qed.

Lemma cut_at_app c data rest :
  c ∉ data ->
  FramingSpec.cut_at c (data ++ rest) = data ++ FramingSpec.cut_at c rest.
Proof.
  induction data as [|x data IH]; intros Habsent; [reflexivity|].
  apply not_elem_of_cons in Habsent as [Hne Habsent].
  cbn [FramingSpec.cut_at app].
  rewrite bool_decide_eq_false_2 by congruence. rewrite IH by exact Habsent.
  reflexivity.
Qed.

Lemma cut_at_first c data rest :
  c ∉ data -> FramingSpec.cut_at c (data ++ c :: rest) = data.
Proof.
  intros Habsent. rewrite cut_at_app by exact Habsent. cbn [FramingSpec.cut_at].
  rewrite bool_decide_eq_true_2 by reflexivity. apply app_nil_r.
Qed.

Lemma cut_at_clean c data : c ∉ FramingSpec.cut_at c data.
Proof.
  induction data as [|x data IH]; cbn [FramingSpec.cut_at]; [apply not_elem_of_nil|].
  case_bool_decide as Hx; [apply not_elem_of_nil|].
  apply not_elem_of_cons. split; [congruence|exact IH].
Qed.

Lemma cut_at_subseteq c data : FramingSpec.cut_at c data ⊆ data.
Proof.
  induction data as [|x data IH]; cbn [FramingSpec.cut_at]; [reflexivity|].
  case_bool_decide; [apply list_subseteq_nil|].
  intros y Hy. apply elem_of_cons in Hy as [->|Hy];
    [apply list_elem_of_here|apply list_elem_of_further, IH, Hy].
Qed.

Lemma strip_one_trailing_subseteq c data :
  FramingSpec.strip_one_trailing c data ⊆ data.
Proof.
  unfold FramingSpec.strip_one_trailing.
  destruct (reverse data) as [|x before] eqn:Hrev; [reflexivity|].
  case_bool_decide; [|reflexivity].
  apply (f_equal reverse) in Hrev.
  rewrite reverse_involutive, reverse_cons in Hrev. subst data.
  intros y Hy. apply elem_of_app. left. exact Hy.
Qed.

Lemma strip_leading_not_led c data rest :
  head (data ++ rest) <> Some c ->
  FramingSpec.strip_leading c (c :: data ++ rest) = data ++ rest.
Proof.
  intros Hhead. cbn [FramingSpec.strip_leading].
  rewrite bool_decide_eq_true_2 by reflexivity.
  destruct (data ++ rest) as [|x others]; [reflexivity|].
  cbn [FramingSpec.strip_leading].
  rewrite bool_decide_eq_false_2; [reflexivity|].
  intros ->. apply Hhead. reflexivity.
Qed.

(** The flag [parse_start_tag] returns beside the name. *)
Lemma parse_start_tag_flag data :
  snd (parse_start_tag data)
  = PyBytes.endswith
      (FramingSpec.cut_at " "%byte
         (FramingSpec.cut_at ">"%byte (FramingSpec.strip_leading "<"%byte data)))
      (b "/").
Proof.
  unfold parse_start_tag. change (b "<") with ["<"%byte].
  rewrite lstrip_strip_leading, !item0_split.
  destruct (PyBytes.endswith _ _); reflexivity.
Qed.

Lemma parse_start_tag_pair data :
  parse_start_tag data = (fst (parse_start_tag data), snd (parse_start_tag data)).
Proof. destruct (parse_start_tag data). reflexivity. Qed.

(** The tag text before the trailing slash is looked at. *)
Lemma cut_opening_tag name rest sep :
  "<"%byte ∉ name -> ">"%byte ∉ name -> " "%byte ∉ name ->
  sep = ">"%byte \/ sep = " "%byte ->
  FramingSpec.cut_at " "%byte
    (FramingSpec.cut_at ">"%byte
       (FramingSpec.strip_leading "<"%byte ("<"%byte :: name ++ sep :: rest)))
  = name.
Proof.
  intros Hlt Hgt Hspace Hsep.
  rewrite strip_leading_not_led.
  - destruct Hsep as [->| ->].
    + rewrite cut_at_first by exact Hgt. apply cut_at_absent. exact Hspace.
    + rewrite cut_at_app by exact Hgt. cbn [FramingSpec.cut_at].
      rewrite (bool_decide_eq_false_2 (" "%byte = ">"%byte)) by discriminate.
      apply cut_at_first. exact Hspace.
  - destruct name as [|x name]; cbn [app head].
    + destruct Hsep as [->| ->]; discriminate.
    + intros [= ->]. apply Hlt. apply list_elem_of_here.
Qed.

(** X5. [parse_start_tag] recovers the name of an opening tag: for a name
    without [<], [>] and space, followed by [>] or by a space and
    anything, it returns the name and [False] unless the name ends with
    [/]; and when a [/] stands between the name and that byte, as in a
    self-closing tag, it returns the name and [True]. *)
Theorem parse_start_tag_recovers_name name rest sep :
  "<"%byte ∉ name -> ">"%byte ∉ name -> " "%byte ∉ name ->
  sep = ">"%byte \/ sep = " "%byte ->
  (~ b "/" `suffix_of` name ->
     parse_start_tag (b "<" ++ name ++ sep :: rest) = (name, false))
  /\ parse_start_tag (b "<" ++ (name ++ b "/") ++ sep :: rest) = (name, true).
Proof.
  intros Hlt Hgt Hspace Hsep. split.
  - intros Hslash.
    rewrite parse_start_tag_pair, parse_start_tag_opening_tag_name,
      parse_start_tag_flag.
    unfold FramingSpec.opening_tag_name. change (b "<") with ["<"%byte].
    cbn [app]. rewrite (cut_opening_tag name rest sep Hlt Hgt Hspace Hsep).
    rewrite <- strip_slash_cases.
    rewrite (proj2 (endswith_not_suffix name (b "/")) Hslash). reflexivity.
  - assert (Hname : forall c : byte, c <> "/"%byte -> c ∉ name -> c ∉ name ++ b "/").
    { intros c Hc Habsent Hin. apply elem_of_app in Hin as [Hin|Hin];
        [exact (Habsent Hin)|].
      apply list_elem_of_singleton in Hin. exact (Hc Hin). }
    rewrite parse_start_tag_pair, parse_start_tag_opening_tag_name,
      parse_start_tag_flag.
    unfold FramingSpec.opening_tag_name. change (b "<") with ["<"%byte].
    cbn [app].
    rewrite (cut_opening_tag (name ++ b "/") rest sep) by
      (first [exact Hsep | apply Hname; [discriminate|assumption]]).
    rewrite <- strip_slash_cases.
    rewrite (proj2 (endswith_suffix (name ++ b "/") (b "/")))
      by (exists name; reflexivity).
    unfold PyBytes.but_last. rewrite length_app.
    change (length (b "/")) with 1%nat.
    replace (length name + 1 - 1)%nat with (length name) by lia.
    rewrite take_app_length. reflexivity.
Qed.

Lemma parse_start_tag_recovers_name_witness :
  parse_start_tag (b "<" ++ b "message" ++ " "%byte :: b "type=chat>hello")
  = (b "message", false)
  /\ parse_start_tag (b "<" ++ (b "ack" ++ b "/") ++ ">"%byte :: b "<k>")
     = (b "ack", true).
Proof.
  split.
  - apply (parse_start_tag_recovers_name (b "message") (b "type=chat>hello")
             " "%byte);
      [apply (bool_decide_unpack _); vm_compute; exact I ..
      |right; reflexivity|].
    apply endswith_not_suffix. reflexivity.
  - apply (parse_start_tag_recovers_name (b "ack") (b "<k>") ">"%byte);
      [apply (bool_decide_unpack _); vm_compute; exact I ..
      |left; reflexivity].
Defined.

(** X6. Whatever the read, the tag name [parse_start_tag] returns has no
    [>] and no space in it and does not begin with [<]. *)
Theorem parse_start_tag_name_is_clean data :
  (">"%byte ∉ fst (parse_start_tag data))
  /\ (" "%byte ∉ fst (parse_start_tag data))
  /\ head (fst (parse_start_tag data)) <> Some "<"%byte.
Proof.
  rewrite parse_start_tag_opening_tag_name. unfold FramingSpec.opening_tag_name.
  set (stripped := FramingSpec.strip_leading "<"%byte data).
  assert (Hstripped : head stripped <> Some "<"%byte).
  { subst stripped. induction data as [|x data IH]; [discriminate|].
    cbn [FramingSpec.strip_leading]. case_bool_decide as Hx; [exact IH|].
    cbn [head]. congruence. }
  set (cut := FramingSpec.cut_at " "%byte (FramingSpec.cut_at ">"%byte stripped)).
  assert (Hgt : ">"%byte ∉ cut).
  { intros Hin. apply (cut_at_clean ">"%byte stripped).
    apply (cut_at_subseteq " "%byte). exact Hin. }
  assert (Hspace : " "%byte ∉ cut) by apply cut_at_clean.
  assert (Hhead : head cut <> Some "<"%byte).
  { subst cut. destruct stripped as [|x others]; [discriminate|].
    cbn [FramingSpec.cut_at]. case_bool_decide; [discriminate|].
    cbn [FramingSpec.cut_at]. case_bool_decide; [discriminate|].
    exact Hstripped. }
  split; [|split].
  - intros Hin. apply Hgt. apply (strip_one_trailing_subseteq "/"%byte). exact Hin.
  - intros Hin. apply Hspace. apply (strip_one_trailing_subseteq "/"%byte). exact Hin.
  - unfold FramingSpec.strip_one_trailing.
    destruct (reverse cut) as [|x before] eqn:Hrev; [exact Hhead|].
    case_bool_decide as Hx; [|exact Hhead].
    apply (f_equal reverse) in Hrev.
    rewrite reverse_involutive, reverse_cons in Hrev.
    destruct (reverse before) as [|y others]; [discriminate|].
    rewrite Hrev in Hhead. exact Hhead.
Qed.

End OpeningTag.

(** ** The send primitive and the operations built on it *)

Section SendPrimitive.

Implicit Types (self : KikClient) (message : XMPPElement) (reads : list bool).

Lemma reads_cases reads :
  (exists (n : nat) (later : list bool), reads = repeat false n ++ true :: later)
  \/ (exists n : nat, reads = repeat false n).
Proof.
  induction reads as [|read reads IH].
  - right. exists 0%nat. reflexivity.
  - destruct read.
    + left. exists 0%nat, reads. reflexivity.
    + destruct IH as [(n & later & ->)|(n & ->)].
      * left. exists (S n), later. reflexivity.
      * right. exists (S n). reflexivity.
Qed.

Lemma sends_app (t1 t2 : list Effect) : sends (t1 ++ t2) = sends t1 ++ sends t2.
Proof.
  induction t1 as [|e t1 IH]; [reflexivity|].
  destruct e as [| [] | | | | | |]; cbn [sends app]; rewrite IH; reflexivity.
Qed.

Lemma sends_waiting (n : nat) : sends (waiting n) = [].
Proof. induction n as [|n IH]; [reflexivity|exact IH]. Qed.

Lemma schedule_send_without_connection self data :
  connection self = None ->
  schedule_send data self = mkRes self [] (Raised AttributeError).
Proof. intros Hnone. run_method. rewrite Hnone. reflexivity. Qed.

(** The marshalling step on a client that has no connection object. *)
Lemma marshal_element_without_connection self message :
  connection self = None ->
  exists tr outcome,
    (match serialize message with
     | Packets packets =>
         log DEBUG "[!] Sending multi packet data." ;;;
         for_each packets (fun p => schedule_send (Bytes p)) ;;;
         ret (message_id message)
     | Bytes data =>
         schedule_send (Bytes data) ;;;
         ret (message_id message)
     end) self = mkRes self tr outcome
    /\ sends tr = []
    /\ ((outcome = Returned (message_id message) /\ payloads message = [])
        \/ outcome = Raised AttributeError).
Proof.
  intros Hnone. unfold payloads.
  destruct self; simpl in Hnone; subst.
  destruct (serialize message) as [data|[|p packets]].
  - exists [], (Raised AttributeError). repeat split. right. reflexivity.
  - exists [Log DEBUG "[!] Sending multi packet data."],
      (Returned (message_id message)).
    repeat split. left. split; reflexivity.
  - exists [Log DEBUG "[!] Sending multi packet data."], (Raised AttributeError).
    repeat split. right. reflexivity.
Qed.

Lemma send_xmpp_element_after_wait (n : nat) (later : list bool) message self :
  _send_xmpp_element (repeat false n ++ true :: later) message self
  = mkRes
      (state ((match serialize message with
               | Packets packets =>
                   log DEBUG "[!] Sending multi packet data." ;;;
                   for_each packets (fun p => schedule_send (Bytes p)) ;;;
                   ret (message_id message)
               | Bytes data =>
                   schedule_send (Bytes data) ;;;
                   ret (message_id message)
               end) self))
      (waiting n
       ++ trace ((match serialize message with
                  | Packets packets =>
                      log DEBUG "[!] Sending multi packet data." ;;;
                      for_each packets (fun p => schedule_send (Bytes p)) ;;;
                      ret (message_id message)
                  | Bytes data =>
                      schedule_send (Bytes data) ;;;
                      ret (message_id message)
                  end) self))
      (result ((match serialize message with
                | Packets packets =>
                    log DEBUG "[!] Sending multi packet data." ;;;
                    for_each packets (fun p => schedule_send (Bytes p)) ;;;
                    ret (message_id message)
                | Bytes data =>
                    schedule_send (Bytes data) ;;;
                    ret (message_id message)
                end) self)).
Proof.
  unfold _send_xmpp_element. unfold bind at 1.
  rewrite wait_for_connection_returns. reflexivity.
Qed.

Lemma send_xmpp_element_blocked (n : nat) message self :
  _send_xmpp_element (repeat false n) message self
  = mkRes self (waiting n) Blocked.
Proof.
  unfold _send_xmpp_element. unfold bind at 1.
  rewrite wait_for_connection_blocks. reflexivity.
Qed.

Lemma send_xmpp_element_outcomes reads message self :
  state (_send_xmpp_element reads message self) = self
  /\ ((result (_send_xmpp_element reads message self)
       = Returned (message_id message)
       /\ sends (trace (_send_xmpp_element reads message self))
          = payloads message)
      \/ ((result (_send_xmpp_element reads message self) = Raised AttributeError
           \/ result (_send_xmpp_element reads message self) = Blocked)
          /\ sends (trace (_send_xmpp_element reads message self)) = [])).
Proof.
  destruct (reads_cases reads) as [(n & later & ->)|(n & ->)].
  - rewrite send_xmpp_element_after_wait.
    destruct (connection self) as [conn|] eqn:Hconn.
    + rewrite (marshal_element _ _ _ Hconn). cbn [state trace result].
      split; [reflexivity|]. left. split; [reflexivity|].
      rewrite sends_app, sends_waiting. apply sends_marshalled.
    + destruct (marshal_element_without_connection self message Hconn)
        as (tr & outcome & -> & Hsends & Houtcome).
      cbn [state trace result]. rewrite sends_app, sends_waiting, Hsends.
      split; [reflexivity|].
      destruct Houtcome as [[-> ->]| ->]; [left|right]; auto.
  - rewrite send_xmpp_element_blocked.
    cbn [state trace result]. rewrite sends_waiting. auto.
Qed.

(** X7. [_send_xmpp_element] never sends part of an element and never
    changes the client: either it returns the element's [message_id] and
    has scheduled every payload, in order, or it has scheduled none and is
    blocked (no poll has read true) or raises [AttributeError] (the client
    has no connection object). *)
Theorem send_xmpp_element_all_or_nothing reads message self :
  state (_send_xmpp_element reads message self) = self
  /\ ((result (_send_xmpp_element reads message self)
       = Returned (message_id message)
       /\ sends (trace (_send_xmpp_element reads message self))
          = payloads message)
      \/ ((result (_send_xmpp_element reads message self) = Raised AttributeError
           \/ result (_send_xmpp_element reads message self) = Blocked)
          /\ sends (trace (_send_xmpp_element reads message self)) = [])).
Proof. apply send_xmpp_element_outcomes. Qed.

Lemma send_xmpp_element_returns (n : nat) (later : list bool) message self conn :
  connection self = Some conn ->
  _send_xmpp_element (repeat false n ++ true :: later) message self
  = mkRes self (waiting n ++ marshalled message) (Returned (message_id message)).
Proof.
  intros Hconn. rewrite send_xmpp_element_after_wait.
  rewrite (marshal_element _ _ _ Hconn). reflexivity.
Qed.

End SendPrimitive.

(** ** Connection acknowledgements *)

Section Acknowledgements.

Context {collaborators : Collaborators}.

Implicit Types (self : KikClient) (k : Node).

(** X8. A connection acknowledgement whose [ok] attribute is not ["1"]
    reports the failure to the callback once, with the stanza, and changes
    nothing on the client: [connected] is not set and no login is sent. An
    acknowledgement without an [ok] attribute raises [KeyError] before
    anything is done. *)
Theorem negative_acknowledgement self k :
  (forall ok : string,
     node_attrs k !! "ok" = Some ok -> ok <> "1" ->
     _handle_received_k_element k self
     = mkRes self [Callback (on_connection_failed k)] (Returned tt))
  /\ (node_attrs k !! "ok" = None ->
     _handle_received_k_element k self = mkRes self [] (Raised (KeyError "ok"))).
Proof.
  unfold _handle_received_k_element, getitem. split.
  - intros ok -> Hne. unfold bind at 1. cbn [ret result state trace app].
    rewrite (bool_decide_eq_false_2 _ Hne). reflexivity.
  - intros ->. reflexivity.
Qed.

(** X9. A connection acknowledgement with [ok="1"] and a [ts] attribute
    sets [connected] and [authenticated], calls [on_authenticated] once,
    sends nothing, and leaves the deferred-login flag as it was. *)
Theorem authenticated_acknowledgement self k (ts : string) :
  node_attrs k !! "ok" = Some "1" ->
  node_attrs k !! "ts" = Some ts ->
  _handle_received_k_element k self
  = mkRes (set_authenticated true (set_connected true self))
      [Log INFO "[+] Authenticated successfully."; Callback on_authenticated]
      (Returned tt)
  /\ should_login_on_connection
       (state (_handle_received_k_element k self))
     = should_login_on_connection self.
Proof.
  intros Hok Hts. unfold _handle_received_k_element, getitem.
  rewrite Hok, Hts.
  rewrite (bool_decide_eq_true_2 (is_Some (Some ts))) by (eexists; reflexivity).
  destruct self. split; reflexivity.
Qed.

End Acknowledgements.

Lemma negative_acknowledgement_witness :
  _handle_received_k_element (collaborators := example_collaborators)
    k_failed client_without_node
  = mkRes client_without_node [Callback (on_connection_failed k_failed)]
      (Returned tt)
  /\ _handle_received_k_element (collaborators := example_collaborators)
       (Tag "k" ∅ []) client_without_node
     = mkRes client_without_node [] (Raised (KeyError "ok")).
Proof.
  split.
  - apply (proj1 (negative_acknowledgement (collaborators := example_collaborators)
                    client_without_node k_failed) "0"); [reflexivity|discriminate].
  - apply (proj2 (negative_acknowledgement (collaborators := example_collaborators)
                    client_without_node (Tag "k" ∅ []))). reflexivity.
Defined.

Lemma authenticated_acknowledgement_witness :
  _handle_received_k_element (collaborators := example_collaborators)
    k_ok_ts client_without_node
  = mkRes (set_authenticated true (set_connected true client_without_node))
      [Log INFO "[+] Authenticated successfully."; Callback on_authenticated]
      (Returned tt).
Proof.
  exact (proj1 (authenticated_acknowledgement
                  (collaborators := example_collaborators)
                  client_without_node k_ok_ts "1234567" eq_refl eq_refl)).
Defined.


(** ** Routing of [iq] and [message] stanzas *)

Section RoutingEdges.

Context {collaborators : Collaborators}.

Implicit Types (self : KikClient) (message iq_element query : Node).

(** X10. An [iq] stanza is routed by the [xmlns:] attribute of its first
    [query] descendant, and the handler receives the whole [iq] element.
    An [iq] with no [query] descendant raises [TypeError]; one whose query
    has no [xmlns:] attribute raises [KeyError]; in both cases nothing is
    logged and no handler is invoked. *)
Theorem iq_routing self iq_element :
  (find "query" iq_element = None ->
     _handle_received_iq_element iq_element self
     = mkRes self [] (Raised TypeError))
  /\ (forall query,
     find "query" iq_element = Some query ->
     node_attrs query !! "xmlns:" = None ->
     _handle_received_iq_element iq_element self
     = mkRes self [] (Raised (KeyError "xmlns:")))
  /\ (forall query xmlns handler,
     find "query" iq_element = Some query ->
     node_attrs query !! "xmlns:" = Some xmlns ->
     xml_namespace_handlers self !! xmlns = Some handler ->
     _handle_received_iq_element iq_element self
     = mkRes self [Handle handler iq_element] (Returned tt)).
Proof.
  unfold _handle_received_iq_element, getitem. split; [|split].
  - intros ->. reflexivity.
  - intros query -> ->. reflexivity.
  - intros query xmlns handler -> -> Hreg.
    unfold bind. cbn [ret result state trace app].
    rewrite (handle_xmlns_registered _ _ _ _ Hreg). reflexivity.
Qed.

(** X11. A [message] stanza that has a [type] attribute, on a client whose
    registry has the ['jabber:client'] entry, never raises and leaves the
    client as it was, with exactly one effect: by its [xmlns] attribute
    when it has one (the registered handler, or the warning for an unknown
    namespace); otherwise the group-receipt callback when the type is
    [receipt] and a [g] descendant exists; otherwise the ['jabber:client']
    handler. *)
Theorem message_with_type_is_routed_once self message (type : string)
    (fallback : Handler) :
  node_attrs message !! "type" = Some type ->
  xml_namespace_handlers self !! "jabber:client" = Some fallback ->
  _handle_xmpp_message message self
  = mkRes self
      [match node_attrs message !! "xmlns" with
       | Some xmlns =>
           match xml_namespace_handlers self !! xmlns with
           | Some handler => Handle handler message
           | None =>
               Log WARNING
                 "[-] Received unknown xml namespace: '{}', ignoring (to see full data, enable debug logs)"
           end
       | None =>
           if bool_decide (type = "receipt") && is_not_None (find "g" message)
           then Callback (on_group_receipts_received message)
           else Handle fallback message
       end]
      (Returned tt).
Proof.
  intros Htype Hfallback.
  destruct (message_dispatch_precedence self message)
    as (Hxmlns & Hgroup & Hdefault & _).
  destruct (node_attrs message !! "xmlns") as [xmlns|] eqn:Hattr.
  - rewrite (Hxmlns xmlns eq_refl).
    destruct (xml_namespace_handlers self !! xmlns) as [handler|] eqn:Hreg.
    + apply handle_xmlns_registered. exact Hreg.
    + apply handle_xmlns_unknown. exact Hreg.
  - destruct (decide (type = "receipt")) as [->|Hne].
    + rewrite (bool_decide_eq_true_2 ("receipt" = "receipt")) by reflexivity.
      destruct (find "g" message) as [group_marker|] eqn:Hg.
      * apply (Hgroup group_marker eq_refl Htype eq_refl).
      * apply (Hdefault "receipt" fallback eq_refl Htype); auto.
    + rewrite (bool_decide_eq_false_2 _ Hne).
      apply (Hdefault type fallback eq_refl Htype); auto.
Qed.

End RoutingEdges.

Lemma iq_routing_witness :
  _handle_received_iq_element iq_without_query client_without_node
  = mkRes client_without_node [] (Raised TypeError)
  /\ _handle_received_iq_element iq_without_namespace client_without_node
     = mkRes client_without_node [] (Raised (KeyError "xmlns:"))
  /\ _handle_received_iq_element iq_roster client_without_node
     = mkRes client_without_node [Handle RosterHandler iq_roster] (Returned tt).
Proof.
  split; [|split].
  - apply (iq_routing client_without_node iq_without_query). reflexivity.
  - apply (proj1 (proj2 (iq_routing client_without_node iq_without_namespace))
             (Tag "query" ∅ [])); reflexivity.
  - apply (proj2 (proj2 (iq_routing client_without_node iq_roster))
             (Tag "query" {[ "xmlns:" := "jabber:iq:roster" ]} [])
             "jabber:iq:roster" RosterHandler); reflexivity.
Defined.

Lemma message_with_type_is_routed_once_witness :
  _handle_xmpp_message group_receipt client_without_node
  = mkRes client_without_node
      [Callback (on_group_receipts_received group_receipt)] (Returned tt)
  /\ _handle_xmpp_message chat_without_xmlns client_without_node
     = mkRes client_without_node [Handle MessageHandler chat_without_xmlns]
         (Returned tt).
Proof.
  split.
  - exact (message_with_type_is_routed_once client_without_node group_receipt
             "receipt" MessageHandler eq_refl eq_refl).
  - exact (message_with_type_is_routed_once client_without_node chat_without_xmlns
             "chat" MessageHandler eq_refl eq_refl).
Defined.

(** ** What the client's own code leaves alone

    A call of a handler or of a callback is an entry of the trace: that
    code is outside [client.py], it holds the client, and what it does to
    the client (a login response handler calls
    [_establish_authenticated_session], which stores the node) is not part
    of the state the model computes. The lemmas of this section follow the
    client's own code; the theorem states their result for the runs that
    call no handler and no callback. *)

Section IdentityKept.

Context {collaborators : Collaborators}.

Implicit Types (self : KikClient).



Lemma login_state reads (user pass captcha : option string) self :
  state (login reads user pass captcha self)
  = set_password pass (set_username user self).
Proof.
  unfold login. run_method. destruct pass as [pass|]; [|reflexivity].
  cbn [state trace result app].
  match goal with
  | |- context [_send_xmpp_element reads ?m ?s] =>
      pose proof (proj1 (send_xmpp_element_outcomes reads m s)) as Hstate;
        destruct (_send_xmpp_element reads m s) as [after tr [value|e|]]
  end; cbn [state trace result] in *; subst; reflexivity.
Qed.











(** X13. End to end: with no buffer open, a read shorter than 16384 bytes
    that parses to a [k] element with [ok="1"] and a [ts] attribute leaves
    the client connected and authenticated, with [on_authenticated] called
    once and nothing written to the transport. *)
Theorem received_acknowledgement_authenticates
    (turns : nat) (data : bytes) self conn (k : Node) (others : list Node)
    (ts : string) :
  connection self = Some conn -> partial_data conn = None ->
  len data < 16384 -> data <> b " " ->
  BeautifulSoup data = inr (k :: others) ->
  node_name k = Some "k" ->
  node_attrs k !! "ok" = Some "1" -> node_attrs k !! "ts" = Some ts ->
  receive (S turns) data self
  = mkRes (set_authenticated true (set_connected true self))
      [Log DEBUG "[+] Received raw data: %s";
       CallSoonThreadsafe (OnNewDataReceived data);
       Log INFO "[+] Authenticated successfully.";
       Callback on_authenticated]
      (Returned []).
Proof.
  intros Hconn Hnone Hlen Hdata Hparse Hname Hok Hts.
  unfold receive, on_connection. rewrite Hconn.
  rewrite (data_received_short conn data Hnone Hlen).
  cbn [state trace result scheduled]. rewrite (set_connection_same _ _ Hconn).
  assert (Hcall : run_call (OnNewDataReceived data) self
                  = mkRes (set_authenticated true (set_connected true self))
                      [Log INFO "[+] Authenticated successfully.";
                       Callback on_authenticated] (Returned tt)).
  { cbn [run_call]. rewrite (on_new_data_received_stanza _ _ _ _ Hdata Hparse).
    unfold dispatch_by_tag. rewrite Hname.
    rewrite (bool_decide_eq_true_2 (Some "k" = Some "k")) by reflexivity.
    rewrite (bool_decide_eq_false_2 (Some "k" = Some "iq")) by discriminate.
    rewrite (bool_decide_eq_false_2 (Some "k" = Some "message")) by discriminate.
    rewrite (bool_decide_eq_false_2 (Some "k" = Some "stc")) by discriminate.
    unfold bind.
    unfold _handle_received_k_element, getitem. rewrite Hok, Hts.
    rewrite (bool_decide_eq_true_2 (is_Some (Some ts))) by (eexists; reflexivity).
    destruct self; reflexivity. }
  rewrite (run_loop_turn self turns (OnNewDataReceived data) [] _ _ Hcall).
  cbn [scheduled app]. rewrite run_loop_done. reflexivity.
Qed.

End IdentityKept.


Lemma received_acknowledgement_authenticates_witness :
  receive (collaborators := acknowledging_collaborators) 1 short_read
    client_without_node
  = mkRes (set_authenticated true (set_connected true client_without_node))
      [Log DEBUG "[+] Received raw data: %s";
       CallSoonThreadsafe (OnNewDataReceived short_read);
       Log INFO "[+] Authenticated successfully.";
       Callback on_authenticated]
      (Returned []).
Proof.
  apply (received_acknowledgement_authenticates
           (collaborators := acknowledging_collaborators)
           0 short_read client_without_node connected_transport k_ok_ts []
           "1234567"); try reflexivity.
  discriminate.
Defined.

(** ** Closing, reconnecting, logging in *)

Section Lifecycle.

Context {collaborators : Collaborators}.

Implicit Types (self : KikClient) (conn : KikConnection) (t : Transport).

(** X14. [disconnect] writes the closing tag [</k>] once when the
    transport is established, writes nothing and returns when it is not,
    and raises [AttributeError] when the client has no connection object.
    In every case the client is left as it was: [connected] and
    [authenticated] are not cleared by the call itself. *)
Theorem disconnect_cases self :
  (forall conn t,
     connection self = Some conn -> transport conn = Some t ->
     disconnect self
     = mkRes self
         [Log INFO "[!] Disconnecting."; TransportWrite (Bytes (b "</k>"))]
         (Returned tt))
  /\ (forall conn,
     connection self = Some conn -> transport conn = None ->
     disconnect self = mkRes self [Log INFO "[!] Disconnecting."] (Returned tt))
  /\ (connection self = None ->
     disconnect self
     = mkRes self [Log INFO "[!] Disconnecting."] (Raised AttributeError)).
Proof.
  unfold disconnect, close. split; [|split].
  - intros conn t Hconn Ht. run_method. rewrite Hconn. cbn. rewrite Ht. cbn.
    rewrite (set_connection_same _ _ Hconn). reflexivity.
  - intros conn Hconn Ht. run_method. rewrite Hconn. cbn. rewrite Ht. cbn.
    rewrite (set_connection_same _ _ Hconn). reflexivity.
  - intros Hnone. run_method. rewrite Hnone. reflexivity.
Qed.

(** X15. [_establish_authenticated_session] stores the node first, then
    writes the closing tag on the current transport, and only then starts
    the new connection thread. Without a connection object it raises
    [AttributeError] with the node already stored and no thread started. *)
Theorem reconnection_closes_before_restart self (node : option string) :
  (forall conn t,
     connection self = Some conn -> transport conn = Some t ->
     _establish_authenticated_session node self
     = mkRes (set_kik_node node self)
         [Log INFO "[+] Closing current connection and creating a new authenticated one.";
          Log INFO "[!] Disconnecting.";
          TransportWrite (Bytes (b "</k>"));
          ThreadStart]
         (Returned tt))
  /\ (connection self = None ->
     _establish_authenticated_session node self
     = mkRes (set_kik_node node self)
         [Log INFO "[+] Closing current connection and creating a new authenticated one.";
          Log INFO "[!] Disconnecting."]
         (Raised AttributeError)).
Proof.
  split.
  - intros conn t Hconn Ht. destruct self, conn; simpl in Hconn, Ht; subst.
    reflexivity.
  - intros Hnone. destruct self; simpl in Hnone; subst. reflexivity.
Qed.

(** X16. [login] stores the username and the password it is given before
    anything else, whatever happens next; called with no password it
    raises [TypeError] with the stored password already replaced by
    [None], and logs and sends nothing. *)
Theorem login_stores_credentials_first
    (reads : list bool) (user pass captcha : option string) self :
  state (login reads user pass captcha self)
  = set_password pass (set_username user self)
  /\ login reads user None captcha self
     = mkRes (set_password None (set_username user self)) [] (Raised TypeError).
Proof. split; [apply login_state|reflexivity]. Qed.

(** X17. When the transport is established the payload stored in
    [initial_connection_payload] is the one payload written, and
    [connected] is not set: it is set by the acknowledgement only. *)
Theorem initial_payload_is_written self conn t :
  connection self = Some conn ->
  exists payload,
    initial_connection_payload (state (connection_made t self)) = Some payload
    /\ writes (trace (connection_made t self)) = [payload]
    /\ connected (state (connection_made t self)) = connected self.
Proof.
  intros Hconn.
  destruct self as [user pass node ? ? ? ? ? ? ? ?]; simpl in Hconn; subst.
  destruct user as [user|], pass as [pass|], node as [node|];
    eexists; repeat split.
Qed.

End Lifecycle.

Lemma disconnect_cases_witness :
  disconnect client_without_node
  = mkRes client_without_node
      [Log INFO "[!] Disconnecting."; TransportWrite (Bytes (b "</k>"))]
      (Returned tt)
  /\ disconnect client_before_transport
     = mkRes client_before_transport [Log INFO "[!] Disconnecting."] (Returned tt)
  /\ disconnect client_without_connection
     = mkRes client_without_connection [Log INFO "[!] Disconnecting."]
         (Raised AttributeError).
Proof.
  split; [|split].
  - apply (proj1 (disconnect_cases client_without_node)
             connected_transport transport_object); reflexivity.
  - apply (proj1 (proj2 (disconnect_cases client_before_transport))
             new_KikConnection); reflexivity.
  - apply (proj2 (proj2 (disconnect_cases client_without_connection))).
    reflexivity.
Defined.

Lemma reconnection_closes_before_restart_witness :
  trace (_establish_authenticated_session (Some "user_abc") client_without_node)
  = [Log INFO "[+] Closing current connection and creating a new authenticated one.";
     Log INFO "[!] Disconnecting.";
     TransportWrite (Bytes (b "</k>"));
     ThreadStart]
  /\ kik_node (state (_establish_authenticated_session (Some "user_abc")
                       client_without_connection)) = Some "user_abc".
Proof.
  split.
  - rewrite (proj1 (reconnection_closes_before_restart client_without_node
                      (Some "user_abc"))
               connected_transport transport_object eq_refl eq_refl).
    reflexivity.
  - rewrite (proj2 (reconnection_closes_before_restart client_without_connection
                      (Some "user_abc")) eq_refl).
    reflexivity.
Defined.

Lemma initial_payload_is_written_witness :
  exists payload,
    initial_connection_payload
      (state (connection_made (collaborators := example_collaborators)
                transport_object client_before_transport)) = Some payload
    /\ writes (trace (connection_made (collaborators := example_collaborators)
                        transport_object client_before_transport)) = [payload]
    /\ connected (state (connection_made (collaborators := example_collaborators)
                           transport_object client_before_transport))
       = connected client_before_transport.
Proof.
  exact (initial_payload_is_written (collaborators := example_collaborators)
           client_before_transport new_KikConnection transport_object eq_refl).
Defined.

(** ** Further public operations *)

Section OtherOperationsFacts.

Context {collaborators : Collaborators} {builders : OtherBuilders}.

Implicit Types (self : KikClient) (conn : KikConnection) (jid : string).

Lemma is_group_jid_user self jid :
  str_contains "@talk.kik.com" jid = true ->
  is_group_jid jid self = mkRes self [] (Returned false).
Proof. unfold is_group_jid. intros ->. reflexivity. Qed.

Lemma is_group_jid_group self jid :
  str_contains "@talk.kik.com" jid = false ->
  str_contains "@groups.kik.com" jid = true ->
  is_group_jid jid self = mkRes self [] (Returned true).
Proof. unfold is_group_jid. intros -> ->. reflexivity. Qed.

Lemma is_group_jid_invalid self jid :
  str_contains "@talk.kik.com" jid = false ->
  str_contains "@groups.kik.com" jid = false ->
  is_group_jid jid self
  = mkRes self [] (Raised (KikApiException "Not a valid jid")).
Proof. unfold is_group_jid. intros -> ->. reflexivity. Qed.

(** X18. [send_chat_image], [send_is_typing] and [send_gif_image] check
    the address before anything else: for an address in which neither
    [@talk.kik.com] nor [@groups.kik.com] occurs they raise
    [KikApiException] without logging, polling, sleeping or scheduling
    anything, whatever the other arguments and the state of the
    connection. *)
Theorem classifying_sends_validate_first self jid :
  str_contains "@talk.kik.com" jid = false ->
  str_contains "@groups.kik.com" jid = false ->
  forall (reads : list bool) (file search_term : string) (flag : bool),
    send_chat_image reads jid file flag self
    = mkRes self [] (Raised (KikApiException "Not a valid jid"))
    /\ send_is_typing reads jid flag self
       = mkRes self [] (Raised (KikApiException "Not a valid jid"))
    /\ send_gif_image reads jid search_term self
       = mkRes self [] (Raised (KikApiException "Not a valid jid")).
Proof.
  intros Htalk Hgroups reads file search_term flag.
  unfold send_chat_image, send_is_typing, send_gif_image, bind.
  rewrite (is_group_jid_invalid self jid Htalk Hgroups).
  repeat split.
Qed.

(** X19. On a connected client the kind of the address selects the
    element: a group address gives the group element, a user address the
    user element (built with [is_group] false), in [send_chat_message],
    [send_chat_image], [send_is_typing] and [send_gif_image] alike; the
    element's payloads are scheduled and its [message_id] is returned. *)
Theorem address_kind_selects_element self conn jid (later : list bool)
    (text : string) (bot : option string) (flag : bool) :
  connection self = Some conn ->
  (str_contains "@talk.kik.com" jid = true ->
     send_chat_message (true :: later) jid text bot self
     = mkRes self
         (Log INFO "[+] Sending chat message '{}' to user '{}'..."
          :: marshalled (OutgoingChatMessage jid text false bot))
         (Returned (message_id (OutgoingChatMessage jid text false bot)))
     /\ send_chat_image (true :: later) jid text flag self
        = mkRes self
            (Log INFO "[+] Sending chat image to user '{}'..."
             :: marshalled (OutgoingChatImage jid text false flag))
            (Returned (message_id (OutgoingChatImage jid text false flag)))
     /\ send_is_typing (true :: later) jid flag self
        = mkRes self (marshalled (OutgoingIsTypingEvent jid flag))
            (Returned (message_id (OutgoingIsTypingEvent jid flag)))
     /\ send_gif_image (true :: later) jid text self
        = mkRes self
            (Log INFO "[+] Sending a GIF message to user '{}'..."
             :: marshalled (OutgoingGIFMessage jid text false))
            (Returned (message_id (OutgoingGIFMessage jid text false))))
  /\ (str_contains "@talk.kik.com" jid = false ->
     str_contains "@groups.kik.com" jid = true ->
     send_chat_message (true :: later) jid text bot self
     = mkRes self
         (Log INFO "[+] Sending chat message '{}' to group '{}'..."
          :: marshalled (OutgoingGroupChatMessage jid text bot))
         (Returned (message_id (OutgoingGroupChatMessage jid text bot)))
     /\ send_chat_image (true :: later) jid text flag self
        = mkRes self
            (Log INFO "[+] Sending chat image to group '{}'..."
             :: marshalled (OutgoingGroupChatImage jid text flag))
            (Returned (message_id (OutgoingGroupChatImage jid text flag)))
     /\ send_is_typing (true :: later) jid flag self
        = mkRes self (marshalled (OutgoingGroupIsTypingEvent jid flag))
            (Returned (message_id (OutgoingGroupIsTypingEvent jid flag)))
     /\ send_gif_image (true :: later) jid text self
        = mkRes self
            (Log INFO "[+] Sending a GIF message to group '{}'..."
             :: marshalled (OutgoingGIFMessage jid text true))
            (Returned (message_id (OutgoingGIFMessage jid text true)))).
Proof.
  intros Hconn.
  unfold send_chat_message, send_chat_image, send_is_typing, send_gif_image.
  split.
  - intros Htalk. unfold bind, log, emit.
    rewrite (is_group_jid_user self jid Htalk). cbn [state trace result].
    rewrite !(send_xmpp_element_connected self conn _ later Hconn).
    repeat split.
  - intros Htalk Hgroups. unfold bind, log, emit.
    rewrite (is_group_jid_group self jid Htalk Hgroups). cbn [state trace result].
    rewrite !(send_xmpp_element_connected self conn _ later Hconn).
    repeat split.
Qed.

(** X20. [send_read_receipt] and [send_delivered_receipt] do not look at
    the address: on a connected client they schedule the receipt and
    return its [message_id] for every string, also for one on which
    [is_group_jid] raises. *)
Theorem receipts_accept_any_address self conn jid (later : list bool)
    (receipt_message_id : string) (group_jid : option string) :
  connection self = Some conn ->
  send_read_receipt (true :: later) jid receipt_message_id group_jid self
  = mkRes self
      (Log INFO "[+] Sending read receipt to JID {} for message ID {}"
       :: marshalled (OutgoingReadReceipt jid receipt_message_id group_jid))
      (Returned (message_id
                   (OutgoingReadReceipt jid receipt_message_id group_jid)))
  /\ send_delivered_receipt (true :: later) jid receipt_message_id self
     = mkRes self
         (Log INFO "[+] Sending delivered receipt to JID {} for message ID {}"
          :: marshalled (OutgoingDeliveredReceipt jid receipt_message_id))
         (Returned (message_id (OutgoingDeliveredReceipt jid receipt_message_id))).
Proof.
  intros Hconn. unfold send_read_receipt, send_delivered_receipt, bind, log, emit.
  cbn [state trace result].
  rewrite !(send_xmpp_element_connected self conn _ later Hconn).
  split; reflexivity.
Qed.

Lemma register_state (reads : list bool) (email : string)
    (user pass : option string) (first last birthday : string)
    (captcha : option string) self :
  state (register reads email user pass first last birthday captcha self)
  = set_password pass (set_username user self).
Proof.
  unfold register. run_method.
  match goal with
  | |- context [_send_xmpp_element reads ?m ?s] =>
      pose proof (proj1 (send_xmpp_element_outcomes reads m s)) as Hstate;
        destruct (_send_xmpp_element reads m s) as [after tr [value|e|]]
  end; cbn [state trace result] in *; subst; reflexivity.
Qed.

Lemma change_password_connected self conn (later : list bool)
    (new_password email : string) :
  connection self = Some conn ->
  change_password (true :: later) new_password email self
  = mkRes self
      (Log INFO "[+] Changing the password of the account"
       :: marshalled (ChangePasswordRequest (password self) new_password email
                        (username self)))
      (Returned (message_id
                   (ChangePasswordRequest (password self) new_password email
                      (username self)))).
Proof.
  intros Hconn. unfold change_password, bind, log, emit, get.
  cbn [state trace result].
  rewrite !(send_xmpp_element_connected self conn _ later Hconn). reflexivity.
Qed.

(** X21. [register] stores the username and the password it is given,
    whatever happens next, and [change_password] sends them as the
    current credentials without storing the new password: after a
    registration and one change of password, a second change still
    presents the registered password as the current one. *)
Theorem stored_credentials_are_reused self conn (reads : list bool)
    (later later' : list bool) (email first last birthday : string)
    (captcha : option string) (user pass : option string)
    (new_password new_password' : string) :
  connection self = Some conn ->
  state (register reads email user pass first last birthday captcha self)
  = set_password pass (set_username user self)
  /\ state (change_password (true :: later) new_password email self) = self
  /\ sends
       (trace
          (change_password (true :: later') new_password' email
             (state
                (change_password (true :: later) new_password email
                   (state (register reads email user pass first last birthday
                             captcha self))))))
     = payloads (ChangePasswordRequest pass new_password' email user).
Proof.
  intros Hconn. split; [apply register_state|].
  split; [rewrite (change_password_connected _ _ _ _ _ Hconn); reflexivity|].
  rewrite register_state.
  assert (Hconn' : connection (set_password pass (set_username user self))
                   = Some conn) by (destruct self; exact Hconn).
  rewrite (change_password_connected _ _ later _ _ Hconn').
  cbn [state trace result].
  rewrite (change_password_connected _ _ later' _ _ Hconn').
  cbn [state trace result sends]. rewrite sends_marshalled.
  destruct self; reflexivity.
Qed.

End OtherOperationsFacts.

Lemma classifying_sends_validate_first_witness :
  send_is_typing (builders := example_builders) [false; true] "friend_xyz" true
    client_without_node
  = mkRes client_without_node [] (Raised (KikApiException "Not a valid jid")).
Proof.
  exact (proj1 (proj2 (classifying_sends_validate_first
                         (builders := example_builders)
                         client_without_node "friend_xyz" eq_refl eq_refl
                         [false; true] "" "" true))).
Defined.

Lemma address_kind_selects_element_witness :
  send_is_typing (builders := example_builders) [true]
    "1100221067977_g@groups.kik.com" true client_without_node
  = mkRes client_without_node
      [CallSoonThreadsafe
         (SendRawData (Bytes (b "<message type=groupchat is-typing/>")))]
      (Returned "group-typing-1")
  /\ send_chat_message (collaborators := example_collaborators) [true]
       "friend_xyz@talk.kik.com" "hello" None client_without_node
     = mkRes client_without_node
         [Log INFO "[+] Sending chat message '{}' to user '{}'...";
          CallSoonThreadsafe
            (SendRawData (Bytes (b "<message type=chat id=chat-1/>")))]
         (Returned "chat-1").
Proof.
  split.
  - apply (proj2 (address_kind_selects_element
                    (collaborators := example_collaborators)
                    (builders := example_builders)
                    client_without_node connected_transport
                    "1100221067977_g@groups.kik.com" [] "" None true eq_refl));
      reflexivity.
  - apply (proj1 (address_kind_selects_element
                    (collaborators := example_collaborators)
                    (builders := example_builders)
                    client_without_node connected_transport
                    "friend_xyz@talk.kik.com" [] "hello" None true eq_refl)).
    reflexivity.
Defined.

Lemma receipts_accept_any_address_witness :
  send_read_receipt (builders := example_builders) [true] "friend_xyz" "msg-7"
    None client_without_node
  = mkRes client_without_node
      [Log INFO "[+] Sending read receipt to JID {} for message ID {}";
       CallSoonThreadsafe
         (SendRawData (Bytes (b "<message type=receipt read/>")))]
      (Returned "read-1")
  /\ is_group_jid "friend_xyz" client_without_node
     = mkRes client_without_node [] (Raised (KikApiException "Not a valid jid")).
Proof.
  split; [|reflexivity].
  exact (proj1 (receipts_accept_any_address (builders := example_builders)
                  client_without_node connected_transport "friend_xyz" []
                  "msg-7" None eq_refl)).
Defined.

Lemma stored_credentials_are_reused_witness :
  sends
    (trace
       (change_password (builders := example_builders) [true] "third" "a@b.c"
          (state
             (change_password (builders := example_builders) [true] "second"
                "a@b.c"
                (state (register (builders := example_builders) [true] "a@b.c"
                          (Some "newcomer") (Some "first") "A" "B" "1974-11-20"
                          None client_without_node))))))
  = [Bytes (b "<iq passwd old=first new=third/>")].
Proof.
  exact (proj2 (proj2 (stored_credentials_are_reused
                         (builders := example_builders)
                         client_without_node connected_transport [true] [] []
                         "a@b.c" "A" "B" "1974-11-20" None
                         (Some "newcomer") (Some "first") "second" "third"
                         eq_refl))).
Defined.

(** ** Payloads that hold no element *)

Section EmptyDocuments.

Context {collaborators : Collaborators}.

(** X22. A payload other than the keep-alive that parses to an empty
    document is dropped: the document object itself stands in for the
    element, its name matches no tag, and the call returns with no
    handler, no callback, no log record and no exception, the client left
    as it was. *)
Theorem payload_without_element_is_dropped (self : KikClient) (data : bytes) :
  data <> b " " ->
  BeautifulSoup data = inr [] ->
  _on_new_data_received data self = mkRes self [] (Returned tt).
Proof.
  intros Hdata Hparse. unfold _on_new_data_received.
  rewrite (bool_decide_eq_false_2 _ Hdata), Hparse.
  apply dispatch_by_tag_unknown; discriminate.
Qed.

End EmptyDocuments.

Lemma payload_without_element_is_dropped_witness :
  _on_new_data_received (collaborators := example_collaborators) []
    client_without_node
  = mkRes client_without_node [] (Returned tt).
Proof.
  apply (payload_without_element_is_dropped
           (collaborators := example_collaborators) client_without_node []).
  - discriminate.
  - reflexivity.
Defined.
